(** * Surcharging ROI calculator: the cost comparison of [calculateROI]

    The repository holds two versions of one browser script.  Both read
    five form fields, refuse a monthly volume that is not positive, and
    otherwise compare the competitor's monthly cost with the cost under
    surcharging:

    - [src/script.js] nets the card fees out with the spreadsheet formula
      (module [Formula]);
    - [src/unnamed/part_000] charges a flat 1.39 percent on the whole
      volume (module [FlatRate]).

    JavaScript numbers are IEEE 754 binary64 values.  The arithmetic of
    the script is therefore written once, over an interface [Number], and
    read at two instances: the exact rationals [Q], where the algebra of
    the formulas is proved, and the primitive binary64 floats, where the
    script is evaluated exactly as a browser evaluates it.

    The page is a document of elements addressed by id; what the browser
    supplies ([parseFloat], number formatting) is an interface,
    [Browser].  Timers are kept as data: the document records the ones
    the script has started, and [fire] runs one of them; the passing of
    time and the scrolling itself are not modelled. *)

From Stdlib Require Import Bool List String Ascii ZArith QArith Qabs Qround.
From Stdlib Require Import Floats Uint63 Lia Lqa.
Import ListNotations.

Set Implicit Arguments.
Open Scope string_scope.

(** ** Numbers *)

(** The operations the script applies to numbers.  [num_lit m k] is the
    value of a decimal literal with digits [m] and [k] digits after the
    point; [num_truthy] is the truth value a number has as the left
    operand of [||]. *)
Class Number (num : Type) : Type := {
  num_lit : Z -> nat -> num;
  num_add : num -> num -> num;
  num_sub : num -> num -> num;
  num_mul : num -> num -> num;
  num_div : num -> num -> num;
  num_le : num -> num -> bool;
  num_lt : num -> num -> bool;
  num_truthy : num -> bool
}.

Declare Scope js_scope.
Delimit Scope js_scope with js.
Infix "+" := num_add : js_scope.
Infix "-" := num_sub : js_scope.
Infix "*" := num_mul : js_scope.
Infix "/" := num_div : js_scope.
Infix "<=?" := num_le : js_scope.
Infix "<?" := num_lt : js_scope.

(** Exact arithmetic: a literal denotes the rational it spells. *)
Definition Qlit (m : Z) (k : nat) : Q := m # Z.to_pos (10 ^ Z.of_nat k).

#[export] Instance QNumber : Number Q := {
  num_lit := Qlit;
  num_add := Qplus;
  num_sub := Qminus;
  num_mul := Qmult;
  num_div := Qdiv;
  num_le := Qle_bool;
  num_lt := fun x y => negb (Qle_bool y x);
  num_truthy := fun x => negb (Qeq_bool x 0)
}.

(** Binary64 arithmetic.  An integer below 2^53 is a binary64 value, and
    the quotient of two such values is rounded to nearest, so
    [f64_lit m k] is the binary64 value a browser reads from the literal
    (for the short literals of the script). *)
Definition f64_of_Z (z : Z) : float :=
  match z with
  | Z0 => PrimFloat.zero
  | Zpos _ => PrimFloat.of_uint63 (Uint63.of_Z z)
  | Zneg p => PrimFloat.opp (PrimFloat.of_uint63 (Uint63.of_Z (Zpos p)))
  end.

Definition f64_lit (m : Z) (k : nat) : float :=
  PrimFloat.div (f64_of_Z m) (f64_of_Z (10 ^ Z.of_nat k)).

#[export] Instance F64Number : Number float := {
  num_lit := f64_lit;
  num_add := PrimFloat.add;
  num_sub := PrimFloat.sub;
  num_mul := PrimFloat.mul;
  num_div := PrimFloat.div;
  num_le := PrimFloat.leb;
  num_lt := PrimFloat.ltb;
  num_truthy := fun x => negb (PrimFloat.is_nan x || PrimFloat.is_zero x)
}.

(** The rational a finite binary64 value stands for. *)
Definition f64_to_Q (x : float) : option Q :=
  match Prim2SF x with
  | S754_zero _ => Some 0%Q
  | S754_finite s m e =>
      let v := (inject_Z (Zpos m) * Qpower 2 e)%Q in
      Some (if s then Qopp v else v)
  | S754_infinity _ => None
  | S754_nan => None
  end.

(** An amount in whole cents, rounded half away from zero: the two
    fraction digits [formatCurrency] asks [Intl.NumberFormat] for. *)
Definition Qcents (q : Q) : Z :=
  let c := Qfloor (Qabs q * 100 + (1 # 2)) in
  if Qle_bool 0 q then c else Z.opp c.

Definition f64_cents (x : float) : option Z := option_map Qcents (f64_to_Q x).

(** ** The five numbers read from the form *)

Record Inputs (num : Type) : Type := {
  monthlyVolume : num;
  creditCardPercentage : num;
  competitorRate : num;
  competitorSaas : num;
  diCost : num
}.

(** The object [calculateROI] hands to [updateResults]. *)
Module Data.
Record t (num : Type) : Type := {
    competitorSaas : num;
    competitorProcessing : num;
    competitorTotal : num;
    diSaas : num;
    diProcessing : num;
    diTotal : num;
    monthlySavings : num;
    annualSavings : num
  }.
End Data.

(** What one call of [calculateROI] comes to: the alert of the validation
    branch, or the object passed on to the display. *)
Inductive Outcome (num : Type) : Type :=
| Alert (message : string)
| Update (data : Data.t num).
Arguments Alert {num} message.
Arguments Update {num} data.

Definition invalidVolumeMessage : string :=
  "Please enter a valid monthly processing volume".

(** ** The page *)

(** What the script takes from the browser: [parseFloat] ([None] stands
    for NaN), the string a number turns into when it is assigned to
    [input.value], [toLocaleString('en-US')], and the US dollar format of
    [Intl.NumberFormat] with two fraction digits. *)
Class Browser (num : Type) : Type := {
  parseFloat : string -> option num;
  numberToString : option num -> string;
  toLocaleString : num -> string;
  intlFormatUSD : num -> string
}.

(** A timer the script has started: the interval of [animateValue] with
    the variables its callback closes over, the delayed scroll, or the
    timeout of [debounceCalculate], whose callback is empty. *)
Inductive Timer (num : Type) : Type :=
| CountUp (elementId : string) (current end_ increment : num)
| ScrollIntoView (elementId : string)
| Debounce.
Arguments ScrollIntoView {num} elementId.
Arguments Debounce {num}.

(** The document, element by element id, with what the script has shown
    in alerts and the timers it has started (latest first). *)
Record Document (num : Type) : Type := {
  value : string -> string;
  placeholder : string -> string;
  textContent : string -> string;
  display : string -> string;
  alerts : list string;
  timers : list (Timer num)
}.

Definition upd (f : string -> string) (id s : string) : string -> string :=
  fun x => if String.eqb x id then s else f x.

Section Dom.
Context {num : Type} `{Number num} `{Browser num}.
Local Open Scope js_scope.

Definition set_value (id s : string) (d : Document num) : Document num :=
  {| value := upd (value d) id s; placeholder := placeholder d;
     textContent := textContent d; display := display d;
     alerts := alerts d; timers := timers d |}.

Definition set_textContent (id s : string) (d : Document num)
  : Document num :=
  {| value := value d; placeholder := placeholder d;
     textContent := upd (textContent d) id s; display := display d;
     alerts := alerts d; timers := timers d |}.

Definition set_display (id s : string) (d : Document num) : Document num :=
  {| value := value d; placeholder := placeholder d;
     textContent := textContent d; display := upd (display d) id s;
     alerts := alerts d; timers := timers d |}.

Definition alert (message : string) (d : Document num) : Document num :=
  {| value := value d; placeholder := placeholder d;
     textContent := textContent d; display := display d;
     alerts := message :: alerts d; timers := timers d |}.

Definition start_timer (t : Timer num) (d : Document num) : Document num :=
  {| value := value d; placeholder := placeholder d;
     textContent := textContent d; display := display d;
     alerts := alerts d; timers := t :: timers d |}.

(** [clearTimeout(calculateTimeout)]: the pending timeout of
    [debounceCalculate], if there is one, is cancelled. *)
Definition isDebounce (t : Timer num) : bool :=
  match t with
  | Debounce => true
  | _ => false
  end.

Definition clearCalculateTimeout (d : Document num) : Document num :=
  {| value := value d; placeholder := placeholder d;
     textContent := textContent d; display := display d;
     alerts := alerts d;
     timers := filter (fun t => negb (isDebounce t)) (timers d) |}.

(** The listener of the [input] events: it cancels its pending timeout
    and starts a new one, which will do nothing (the call of
    [calculateROI] in its callback is commented out). *)
Definition debounceCalculate (d : Document num) : Document num :=
  start_timer Debounce (clearCalculateTimeout d).

(** [s.replace(/,/g, '')] *)
Fixpoint stripCommas (s : string) : string :=
  match s with
  | EmptyString => EmptyString
  | String c r =>
      if Ascii.eqb c ","%char then stripCommas r else String c (stripCommas r)
  end.

(** [s.replace(/[^0-9.]/g, '')] *)
Definition isDigitOrDot (c : ascii) : bool :=
  let n := N_of_ascii c in
  ((48 <=? n)%N && (n <=? 57)%N) || Ascii.eqb c "."%char.

Fixpoint keepDigitsAndDots (s : string) : string :=
  match s with
  | EmptyString => EmptyString
  | String c r =>
      if isDigitOrDot c then String c (keepDigitsAndDots r)
      else keepDigitsAndDots r
  end.

(** [a || b] on strings: the empty string is the falsy one. *)
Definition orElse (a b : string) : string :=
  match a with EmptyString => b | _ => a end.

(** [x || 0] on the result of [parseFloat]. *)
Definition orZero (x : option num) : num :=
  match x with
  | Some v => if num_truthy v then v else num_lit 0 0
  | None => num_lit 0 0
  end.

Definition formatCurrency (amount : num) : string := intlFormatUSD amount.

Definition animateValue (elementId : string) (start end_ duration : num)
    (d : Document num) : Document num :=
  let range := end_ - start in
  let increment := range / (duration / num_lit 16 0) in
  let current := start in
  start_timer (CountUp elementId current end_ increment) d.

Definition updateResults (data : Data.t num) (d : Document num)
  : Document num :=
  let d := set_textContent "compSaas"
             (formatCurrency (Data.competitorSaas data)) d in
  let d := set_textContent "compProcessing"
             (formatCurrency (Data.competitorProcessing data)) d in
  let d := set_textContent "compTotal"
             (formatCurrency (Data.competitorTotal data)) d in
  let d := set_textContent "diSaas"
             (formatCurrency (Data.diSaas data)) d in
  let d := set_textContent "diProcessing"
             (formatCurrency (Data.diProcessing data)) d in
  let d := set_textContent "diTotal"
             (formatCurrency (Data.diTotal data)) d in
  let d := set_textContent "monthlySavings"
             (formatCurrency (Data.monthlySavings data)) d in
  let d := set_textContent "annualSavings"
             (formatCurrency (Data.annualSavings data)) d in
  let d := animateValue "monthlySavings" (num_lit 0 0)
             (Data.monthlySavings data) (num_lit 1000 0) d in
  animateValue "annualSavings" (num_lit 0 0)
    (Data.annualSavings data) (num_lit 1500 0) d.

(** What [calculateROI] does with the outcome of its arithmetic. *)
Definition present (o : Outcome num) (d : Document num) : Document num :=
  match o with
  | Alert message => alert message d
  | Update data =>
      let d := updateResults data d in
      let d := set_display "resultsSection" "grid" d in
      start_timer (ScrollIntoView "resultsSection") d
  end.

(** The blur listener of the two percentage fields. *)
Definition clampPercentage (v : option num) : option num :=
  match v with
  | Some x =>
      let x := if x <? num_lit 0 0 then num_lit 0 0 else x in
      let x := if num_lit 100 0 <? x then num_lit 100 0 else x in
      Some x
  | None => None
  end.

Definition blurPercentage (id : string) (d : Document num)
  : Document num :=
  let v := parseFloat (value d id) in
  set_value id (numberToString (clampPercentage v)) d.

Definition percentageInputs : list string :=
  ["creditCardPercentage"; "competitorRate"].
Definition monetaryInputs : list string :=
  ["monthlyVolume"; "competitorSaas"; "diCost"].

Definition isIn (id : string) (ids : list string) : bool :=
  existsb (String.eqb id) ids.
End Dom.

(** ** The personalisation strings of [prefillFromURLParams]

    Strings are sequences of bytes.  [toLowerCase] and [toUpperCase] map
    the ASCII letters and leave every other byte alone, which is what the
    browser does on ASCII text; the statements about them are made for
    ASCII text. *)

Definition isAsciiChar (c : ascii) : bool := (N_of_ascii c <? 128)%N.

Fixpoint isAscii (s : string) : bool :=
  match s with
  | EmptyString => true
  | String c r => isAsciiChar c && isAscii r
  end.

Definition lowerChar (c : ascii) : ascii :=
  let n := N_of_ascii c in
  if ((65 <=? n) && (n <=? 90))%N then ascii_of_N (n + 32) else c.

Definition upperChar (c : ascii) : ascii :=
  let n := N_of_ascii c in
  if ((97 <=? n) && (n <=? 122))%N then ascii_of_N (n - 32) else c.

Fixpoint toLowerCase (s : string) : string :=
  match s with
  | EmptyString => EmptyString
  | String c r => String (lowerChar c) (toLowerCase r)
  end.

Fixpoint toUpperCase (s : string) : string :=
  match s with
  | EmptyString => EmptyString
  | String c r => String (upperChar c) (toUpperCase r)
  end.

(** [s.split(sep)] for a separator of one character: the pieces between
    the separators, empty pieces included. *)
Fixpoint split (sep : ascii) (s : string) : list string :=
  match s with
  | EmptyString => [EmptyString]
  | String c r =>
      if Ascii.eqb c sep then EmptyString :: split sep r
      else match split sep r with
           | w :: ws => String c w :: ws
           | [] => [String c EmptyString]
           end
  end.

(** [words.join(sep)] *)
Fixpoint join (sep : string) (words : list string) : string :=
  match words with
  | [] => EmptyString
  | [w] => w
  | w :: ws => w ++ sep ++ join sep ws
  end.

(** [word.charAt(0)] and [word.slice(1)] *)
Definition charAt0 (word : string) : string :=
  match word with
  | EmptyString => EmptyString
  | String c _ => String c EmptyString
  end.

Definition slice1 (word : string) : string :=
  match word with
  | EmptyString => EmptyString
  | String _ r => r
  end.

(** The title case of the competitor name. *)
Definition titleCase (competitorName : string) : string :=
  join " "
    (map (fun word => toUpperCase (charAt0 word) ++ slice1 word)
       (split " "%char (toLowerCase competitorName))).

(** [name.endsWith('s')] *)
Fixpoint endsWith_s (name : string) : bool :=
  match name with
  | EmptyString => false
  | String c EmptyString => Ascii.eqb c "s"%char
  | String _ r => endsWith_s r
  end.

Definition makePossessive (name : string) : string :=
  if endsWith_s name then name ++ "'" else name ++ "'s".

(** The title case written in one pass: a letter is raised when it opens
    the text or follows a space, and lowered otherwise. *)
Fixpoint titleScan (opening : bool) (s : string) : string :=
  match s with
  | EmptyString => EmptyString
  | String c r =>
      String (if opening then upperChar (lowerChar c) else lowerChar c)
        (titleScan (Ascii.eqb c " "%char) r)
  end.

(** ** The interval of [animateValue] *)

Section Animation.
Context {num : Type} `{Number num} `{Browser num}.
Local Open Scope js_scope.

(** One run of the interval callback: the new [current], and whether the
    callback has cleared its interval. *)
Definition countUpStep (current end_ increment : num) : num * bool :=
  let current := current + increment in
  if ((num_lit 0 0 <? increment) && (end_ <=? current))
     || ((increment <? num_lit 0 0) && (current <=? end_))
  then (end_, true)
  else (current, false).

(** A timer fires: the interval runs its callback and shows the amount,
    the timeouts of the scroll and of [debounceCalculate] run once and
    change no text.  The result is the timer as it goes on, if it
    does. *)
Definition fire (t : Timer num) (d : Document num)
  : option (Timer num) * Document num :=
  match t with
  | CountUp elementId current end_ increment =>
      let '(current', cleared) := countUpStep current end_ increment in
      (if cleared then None
       else Some (CountUp elementId current' end_ increment),
       set_textContent elementId (formatCurrency current') d)
  | ScrollIntoView _ => (None, d)
  | Debounce => (None, d)
  end.

(** A timer fires [n] times, or until it is cleared. *)
Fixpoint fireTimes (n : nat) (t : Timer num) (d : Document num)
  : option (Timer num) * Document num :=
  match n with
  | O => (Some t, d)
  | S n' =>
      match fire t d with
      | (Some t', d') => fireTimes n' t' d'
      | (None, d') => (None, d')
      end
  end.
End Animation.

(** What happens on the page.  [Input] is the user replacing the text of
    an element, which then receives the [input] event; [Keypress] and
    [Blur] reach the listeners the script registers when the page has
    loaded. *)
Inductive Event : Type :=
| Input (id text : string)
| Keypress (id key : string)
| Blur (id : string).

(** The elements the selector of the keypress and [input] listeners
    matches: the page markup is not part of the sources, so the five form
    fields are taken to be the matching inputs. *)
Definition formInputs : list string :=
  ["monthlyVolume"; "creditCardPercentage"; "competitorRate";
   "competitorSaas"; "diCost"].

(** ** [src/script.js]: the spreadsheet formula *)

Module Formula.
Section WithNumber.
Context {num : Type} `{Number num}.
Local Open Scope js_scope.
Variable i : Inputs num.

Definition creditCardVolume : num :=
  monthlyVolume i * (creditCardPercentage i / num_lit 100 0).
Definition debitVolume : num := monthlyVolume i - creditCardVolume.

Definition competitorRateDecimal : num := competitorRate i / num_lit 100 0.
Definition competitorProcessingCost : num :=
  monthlyVolume i * competitorRateDecimal.
Definition competitorTotalCost : num :=
  competitorSaas i + competitorProcessingCost.

Definition baseProcessingRate : num := num_lit 2913 5.
Definition surchargeCollected : num := creditCardVolume * num_lit 3 2.

Definition feesWithSurcharging : num :=
  ((monthlyVolume i + surchargeCollected) * baseProcessingRate)
  - ((creditCardVolume + surchargeCollected) * baseProcessingRate).

Definition adjustedVolume : num := monthlyVolume i + surchargeCollected.
Definition effectiveRate : num := feesWithSurcharging / adjustedVolume.

Definition diProcessingCost : num := feesWithSurcharging.
Definition diTotalCost : num := diCost i + diProcessingCost.

Definition monthlySavings : num := competitorTotalCost - diTotalCost.
Definition annualSavings : num := monthlySavings * num_lit 12 0.

(** The right operands of the three divisions the function evaluates,
    in the order of the source: lines 110, 114 and 136. *)
Definition divisors : list num :=
  [num_lit 100 0; num_lit 100 0; adjustedVolume].

(** The validation and the arithmetic of [calculateROI], from the parsed
    inputs to the alert or to the argument of [updateResults]. *)
Definition calculate : Outcome num :=
  if monthlyVolume i <=? num_lit 0 0 then Alert invalidVolumeMessage
  else Update {|
    Data.competitorSaas := competitorSaas i;
    Data.competitorProcessing := competitorProcessingCost;
    Data.competitorTotal := competitorTotalCost;
    Data.diSaas := diCost i;
    Data.diProcessing := diProcessingCost;
    Data.diTotal := diTotalCost;
    Data.monthlySavings := monthlySavings;
    Data.annualSavings := annualSavings |}.
End WithNumber.

Section WithBrowser.
Context {num : Type} `{Number num} `{Browser num}.
Local Open Scope js_scope.

Definition readInputs (d : Document num) : Inputs num :=
  {| monthlyVolume :=
       orZero (parseFloat (stripCommas
         (orElse (value d "monthlyVolume")
                 (placeholder d "monthlyVolume"))));
     creditCardPercentage :=
       orZero (parseFloat (stripCommas
         (orElse (value d "creditCardPercentage")
                 (placeholder d "creditCardPercentage"))));
     competitorRate :=
       orZero (parseFloat (stripCommas
         (orElse (value d "competitorRate")
                 (placeholder d "competitorRate"))));
     competitorSaas :=
       orZero (parseFloat (keepDigitsAndDots
         (orElse (value d "competitorSaas")
                 (placeholder d "competitorSaas"))));
     diCost :=
       orZero (parseFloat (stripCommas
         (orElse (value d "diCost") (placeholder d "diCost")))) |}.

Definition calculateROI (d : Document num) : Document num :=
  present (calculate (readInputs d)) d.

(** The blur listener of the three monetary fields. *)
Definition blurMonetary (id : string) (d : Document num) : Document num :=
  let v :=
    match parseFloat (stripCommas (value d id)) with
    | None => num_lit 0 0
    | Some x => if x <? num_lit 0 0 then num_lit 0 0 else x
    end in
  set_value id (toLocaleString v) d.

(** The URL parameter names with the ids of their input fields.  The
    query string is [urlParams]: what [URLSearchParams.get] returns for a
    parameter name. *)
Definition paramMap : list (string * string) :=
  [("volume", "monthlyVolume");
   ("cc_percent", "creditCardPercentage");
   ("comp_rate", "competitorRate");
   ("comp_cost", "competitorSaas");
   ("di_cost", "diCost")].

(** The name parameters of [prefillFromURLParams]; an absent and an empty
    parameter are both falsy.  The elements are taken to exist. *)
Definition prefillNames (urlParams : string -> option string)
    (d : Document num) : Document num :=
  let d :=
    match urlParams "competitor" with
    | Some (String c r) =>
        set_textContent "competitorName" (titleCase (String c r)) d
    | _ => d
    end in
  match urlParams "practice" with
  | Some (String c r) =>
      let practiceName := String c r in
      let d := set_textContent "practiceNameTitle" practiceName d in
      let d := set_textContent "practiceNameDetails"
                 (makePossessive practiceName) d in
      let d := set_textContent "practiceNameMonthlySavings" practiceName d in
      set_textContent "practiceNameAnnualSavings" practiceName d
  | _ => d
  end.

(** The value a URL parameter puts into its field: a monetary field gets
    the parsed number with thousands separators. *)
Definition prefillValue (inputId value : string) : string :=
  if isIn inputId monetaryInputs then
    match parseFloat (stripCommas value) with
    | Some numValue => toLocaleString numValue
    | None => "NaN"
    end
  else value.

Definition prefillFromURLParams (urlParams : string -> option string)
    (d : Document num) : Document num :=
  let d :=
    fold_left
      (fun d entry =>
         match urlParams (fst entry) with
         | Some value =>
             set_value (snd entry) (prefillValue (snd entry) value) d
         | None => d
         end)
      paramMap d in
  prefillNames urlParams d.

Definition dispatch (e : Event) (d : Document num) : Document num :=
  match e with
  | Input id text =>
      let d := set_value id text d in
      if isIn id formInputs then debounceCalculate d else d
  | Keypress id key =>
      if isIn id formInputs && String.eqb key "Enter" then calculateROI d
      else d
  | Blur id =>
      if isIn id percentageInputs then blurPercentage id d
      else if isIn id monetaryInputs then blurMonetary id d
      else d
  end.

Definition run (es : list Event) (d : Document num) : Document num :=
  fold_left (fun d e => dispatch e d) es d.

(** The inputs of every call of [calculateROI] during [es], in order. *)
Fixpoint invocations (es : list Event) (d : Document num)
  : list (Inputs num) :=
  match es with
  | [] => []
  | e :: es' =>
      match e with
      | Keypress id key =>
          if isIn id formInputs && String.eqb key "Enter"
          then [readInputs d] else []
      | _ => []
      end ++ invocations es' (dispatch e d)
  end.
End WithBrowser.
End Formula.

(** ** [src/unnamed/part_000]: the flat effective rate *)

Module FlatRate.
Section WithNumber.
Context {num : Type} `{Number num}.
Local Open Scope js_scope.

Definition DI_SURCHARGE_RATE : num := num_lit 139 2.
Definition DI_SURCHARGE_RATE_DECIMAL : num :=
  DI_SURCHARGE_RATE / num_lit 100 0.

Variable i : Inputs num.

Definition creditCardVolume : num :=
  monthlyVolume i * (creditCardPercentage i / num_lit 100 0).
Definition debitVolume : num := monthlyVolume i - creditCardVolume.

Definition competitorRateDecimal : num := competitorRate i / num_lit 100 0.
Definition competitorProcessingCost : num :=
  monthlyVolume i * competitorRateDecimal.
Definition competitorTotalCost : num :=
  competitorSaas i + competitorProcessingCost.

Definition diProcessingCost : num :=
  monthlyVolume i * DI_SURCHARGE_RATE_DECIMAL.
Definition diTotalCost : num := diCost i + diProcessingCost.

Definition monthlySavings : num := competitorTotalCost - diTotalCost.
Definition annualSavings : num := monthlySavings * num_lit 12 0.

(** The validation and the arithmetic of [calculateROI], from the parsed
    inputs to the alert or to the argument of [updateResults]. *)
Definition calculate : Outcome num :=
  if monthlyVolume i <=? num_lit 0 0 then Alert invalidVolumeMessage
  else Update {|
    Data.competitorSaas := competitorSaas i;
    Data.competitorProcessing := competitorProcessingCost;
    Data.competitorTotal := competitorTotalCost;
    Data.diSaas := diCost i;
    Data.diProcessing := diProcessingCost;
    Data.diTotal := diTotalCost;
    Data.monthlySavings := monthlySavings;
    Data.annualSavings := annualSavings |}.
End WithNumber.

Section WithBrowser.
Context {num : Type} `{Number num} `{Browser num}.
Local Open Scope js_scope.

Definition readInputs (d : Document num) : Inputs num :=
  {| monthlyVolume :=
       orZero (parseFloat
         (orElse (value d "monthlyVolume")
                 (placeholder d "monthlyVolume")));
     creditCardPercentage :=
       orZero (parseFloat
         (orElse (value d "creditCardPercentage")
                 (placeholder d "creditCardPercentage")));
     competitorRate :=
       orZero (parseFloat
         (orElse (value d "competitorRate")
                 (placeholder d "competitorRate")));
     competitorSaas :=
       orZero (parseFloat
         (orElse (value d "competitorSaas")
                 (keepDigitsAndDots (placeholder d "competitorSaas"))));
     diCost :=
       orZero (parseFloat
         (orElse (value d "diCost") (placeholder d "diCost"))) |}.

Definition calculateROI (d : Document num) : Document num :=
  present (calculate (readInputs d)) d.

(** The blur listener of the three monetary fields. *)
Definition blurMonetary (id : string) (d : Document num) : Document num :=
  let v :=
    match parseFloat (value d id) with
    | None => None
    | Some x => Some (if x <? num_lit 0 0 then num_lit 0 0 else x)
    end in
  set_value id (numberToString v) d.

(** The URL parameter names with the ids of their input fields.  The
    query string is [urlParams]: what [URLSearchParams.get] returns for a
    parameter name. *)
Definition paramMap : list (string * string) :=
  [("volume", "monthlyVolume");
   ("cc_percent", "creditCardPercentage");
   ("comp_rate", "competitorRate");
   ("comp_cost", "competitorSaas");
   ("di_cost", "diCost")].

(** The name parameters of [prefillFromURLParams]; an absent and an empty
    parameter are both falsy.  The elements are taken to exist. *)
Definition prefillNames (urlParams : string -> option string)
    (d : Document num) : Document num :=
  let d :=
    match urlParams "competitor" with
    | Some (String c r) =>
        set_textContent "competitorName" (titleCase (String c r)) d
    | _ => d
    end in
  match urlParams "practice" with
  | Some (String c r) =>
      let practiceName := String c r in
      let d := set_textContent "practiceNameTitle" practiceName d in
      let d := set_textContent "practiceNameDetails"
                 (makePossessive practiceName) d in
      let d := set_textContent "practiceNameMonthlySavings" practiceName d in
      set_textContent "practiceNameAnnualSavings" practiceName d
  | _ => d
  end.

Definition prefillFromURLParams (urlParams : string -> option string)
    (d : Document num) : Document num :=
  let d :=
    fold_left
      (fun d entry =>
         match urlParams (fst entry) with
         | Some value => set_value (snd entry) value d
         | None => d
         end)
      paramMap d in
  prefillNames urlParams d.

Definition dispatch (e : Event) (d : Document num) : Document num :=
  match e with
  | Input id text =>
      let d := set_value id text d in
      if isIn id formInputs then debounceCalculate d else d
  | Keypress id key =>
      if isIn id formInputs && String.eqb key "Enter" then calculateROI d
      else d
  | Blur id =>
      if isIn id percentageInputs then blurPercentage id d
      else if isIn id monetaryInputs then blurMonetary id d
      else d
  end.

Definition run (es : list Event) (d : Document num) : Document num :=
  fold_left (fun d e => dispatch e d) es d.

(** The inputs of every call of [calculateROI] during [es], in order. *)
Fixpoint invocations (es : list Event) (d : Document num)
  : list (Inputs num) :=
  match es with
  | [] => []
  | e :: es' =>
      match e with
      | Keypress id key =>
          if isIn id formInputs && String.eqb key "Enter"
          then [readInputs d] else []
      | _ => []
      end ++ invocations es' (dispatch e d)
  end.
End WithBrowser.
End FlatRate.

(** ** The two variants side by side *)

(** The specification names the variants [FormulaModel] and
    [FlatRateModel]; each selects one of the two source files. *)
Inductive PricingModel : Type := FormulaModel | FlatRateModel.

Section Variants.
Context {num : Type} `{Number num} `{Browser num}.

Definition compute (m : PricingModel) (i : Inputs num) : Outcome num :=
  match m with
  | FormulaModel => Formula.calculate i
  | FlatRateModel => FlatRate.calculate i
  end.

Definition readInputsOf (m : PricingModel) (d : Document num) : Inputs num :=
  match m with
  | FormulaModel => Formula.readInputs d
  | FlatRateModel => FlatRate.readInputs d
  end.

Definition calculateROIOf (m : PricingModel) (d : Document num)
  : Document num :=
  match m with
  | FormulaModel => Formula.calculateROI d
  | FlatRateModel => FlatRate.calculateROI d
  end.
End Variants.

(** The input of the two worked examples of the specification, with the
    credit card percentage left open. *)
Definition example_inputs {num : Type} `{Number num} (percentage : num)
  : Inputs num :=
  {| monthlyVolume := num_lit 10000 0;
     creditCardPercentage := percentage;
     competitorRate := num_lit 3 0;
     competitorSaas := num_lit 100 0;
     diCost := num_lit 100 0 |}.

(** ** A browser for the closed examples

    Every statement about the page below holds for any [Browser].  The
    closed examples need one to run on: this one reads plain decimal
    numerals (sign, digits, fraction) exactly and prints decimals. *)

Definition digitOf (c : ascii) : option Z :=
  let n := Z.of_N (N_of_ascii c) in
  if ((48 <=? n) && (n <=? 57))%Z then Some (n - 48)%Z else None.

Fixpoint readDigits (s : string) (acc : Z) (count : nat)
  : Z * nat * string :=
  match s with
  | EmptyString => (acc, count, s)
  | String c r =>
      match digitOf c with
      | Some v => readDigits r (10 * acc + v)%Z (S count)
      | None => (acc, count, s)
      end
  end.

Definition parseDecimal (s : string) : option Q :=
  let '(negative, s1) :=
    match s with
    | String "-"%char r => (true, r)
    | _ => (false, s)
    end in
  let '(whole, n1, s2) := readDigits s1 0%Z 0%nat in
  let '(digits, n2) :=
    match s2 with
    | String "."%char r =>
        let '(all, n2, _) := readDigits r whole 0%nat in (all, n2)
    | _ => (whole, 0%nat)
    end in
  if (n1 + n2 =? 0)%nat then None
  else Some (Qlit (if negative then Z.opp digits else digits) n2).

Definition showDigit (v : Z) : ascii := ascii_of_N (Z.to_N (48 + v)).

Fixpoint showDigits (fuel : nat) (v : Z) (acc : string) : string :=
  match fuel with
  | O => acc
  | S fuel' =>
      let acc' := String (showDigit (v mod 10)) acc in
      if (v <? 10)%Z then acc' else showDigits fuel' (v / 10)%Z acc'
  end.

(** The decimal digits of a natural number. *)
Definition showNat (v : Z) : string :=
  showDigits (S (Z.to_nat (Z.log2 v))) v "".

Fixpoint groupThousands (s : string) : string :=
  match s with
  | EmptyString => EmptyString
  | String c r =>
      String c
        (if (0 <? String.length r)%nat && (String.length r mod 3 =? 0)%nat
         then String ","%char (groupThousands r) else groupThousands r)
  end.

Fixpoint padZeros (width : nat) (s : string) : string :=
  match width with
  | O => s
  | S w => if (String.length s <=? w)%nat then padZeros w (String "0"%char s)
           else s
  end.

Fixpoint dropTrailingZeros (s : string) : string :=
  match s with
  | EmptyString => EmptyString
  | String c r =>
      match dropTrailingZeros r with
      | EmptyString => if Ascii.eqb c "0"%char then EmptyString
                       else String c EmptyString
      | r' => String c r'
      end
  end.

(** [q] scaled by [10^k] and rounded half away from zero, as a magnitude. *)
Definition Qscaled (k : nat) (q : Q) : Z :=
  Qfloor (Qabs q * inject_Z (10 ^ Z.of_nat k) + (1 # 2)).

Definition showFixed (grouped trim : bool) (k : nat) (q : Q) : string :=
  let n := Qscaled k q in
  let whole := showNat (n / 10 ^ Z.of_nat k) in
  let fraction := padZeros k (showNat (n mod 10 ^ Z.of_nat k)) in
  let fraction := if trim then dropTrailingZeros fraction else fraction in
  (if grouped then groupThousands whole else whole)
  ++ match fraction with EmptyString => "" | _ => "." ++ fraction end.

Definition showSign (q : Q) : string := if Qle_bool 0 q then "" else "-".

#[export] Instance DecimalBrowser : Browser Q := {
  parseFloat := parseDecimal;
  numberToString := fun v =>
    match v with
    | None => "NaN"
    | Some q => showSign q ++ showFixed false true 17 q
    end;
  toLocaleString := fun q => showSign q ++ showFixed true true 3 q;
  intlFormatUSD := fun q => showSign q ++ "$" ++ showFixed true false 2 q
}.

(** A page with nothing in it, and the page after the user has filled in
    the worked example and pressed Enter in the last field. *)
Definition blankPage : Document Q :=
  {| value := fun _ => "";
     placeholder := fun _ => "";
     textContent := fun _ => "";
     display := fun _ => "";
     alerts := [];
     timers := [] |}.

Definition exampleEvents (percentage : string) : list Event :=
  [Input "monthlyVolume" "10,000";
   Input "creditCardPercentage" percentage;
   Input "competitorRate" "3";
   Input "competitorSaas" "100";
   Input "diCost" "100";
   Keypress "diCost" "Enter"].

Definition resultFields : list string :=
  ["compSaas"; "compProcessing"; "compTotal"; "diSaas"; "diProcessing";
   "diTotal"; "monthlySavings"; "annualSavings"].

(** A positive volume with a credit card percentage of -10000/3: in
    exact arithmetic the rational itself, in binary64 arithmetic the
    nearest value, which is what [parseFloat] reads from
    "-3333.3333333333335". *)
Definition zeroDivisorInputs {num : Type} `{Number num} : Inputs num :=
  {| monthlyVolume := num_lit 3 0;
     creditCardPercentage := (num_lit (-10000) 0 / num_lit 3 0)%js;
     competitorRate := num_lit 3 0;
     competitorSaas := num_lit 100 0;
     diCost := num_lit 100 0 |}.

(** A credit card percentage of 200 with nothing else to pay. *)
Definition doubleShareInputs {num : Type} `{Number num} : Inputs num :=
  {| monthlyVolume := num_lit 10000 0;
     creditCardPercentage := num_lit 200 0;
     competitorRate := num_lit 0 0;
     competitorSaas := num_lit 0 0;
     diCost := num_lit 0 0 |}.

(** ** Vocabulary for the further properties *)

(** Whether a character occurs in a text, and whether all do satisfy a
    test. *)
Fixpoint occurs (c : ascii) (s : string) : bool :=
  match s with
  | EmptyString => false
  | String a r => Ascii.eqb a c || occurs c r
  end.

Fixpoint allChars (test : ascii -> bool) (s : string) : bool :=
  match s with
  | EmptyString => true
  | String a r => test a && allChars test r
  end.

(** The text of a form field as [calculateROI] takes it. *)
Definition fieldText {num : Type} (d : Document num) (id : string) : string :=
  orElse (value d id) (placeholder d id).

Section VariantListeners.
Context {num : Type} `{Number num} `{Browser num}.

Definition dispatchOf (m : PricingModel) (e : Event) (d : Document num)
  : Document num :=
  match m with
  | FormulaModel => Formula.dispatch e d
  | FlatRateModel => FlatRate.dispatch e d
  end.

Definition prefillOf (m : PricingModel) (urlParams : string -> option string)
    (d : Document num) : Document num :=
  match m with
  | FormulaModel => Formula.prefillFromURLParams urlParams d
  | FlatRateModel => FlatRate.prefillFromURLParams urlParams d
  end.
End VariantListeners.

(** The percentage a percentage field is read into. *)
Definition percentageOf {num : Type} (id : string) (i : Inputs num) : num :=
  if String.eqb id "creditCardPercentage" then creditCardPercentage i
  else competitorRate i.

(** The increment [animateValue] computes for its interval, and a number
    of ticks as a rational. *)
Definition incrementOf {num : Type} `{Number num} (start end_ duration : num)
  : num :=
  ((end_ - start) / (duration / num_lit 16 0))%js.

Definition Qnat (n : nat) : Q := inject_Z (Z.of_nat n).

(** Two documents that differ at most in the text of one element. *)
Definition sameButText {num : Type} (id : string) (d' d : Document num)
  : Prop :=
  value d' = value d /\ placeholder d' = placeholder d
  /\ display d' = display d /\ alerts d' = alerts d /\ timers d' = timers d
  /\ forall other, other <> id -> textContent d' other = textContent d other.

(** The elements [prefillFromURLParams] writes a name into. *)
Definition nameFields : list string :=
  ["competitorName"; "practiceNameTitle"; "practiceNameDetails";
   "practiceNameMonthlySavings"; "practiceNameAnnualSavings"].

(** One step of the loop of [prefillFromURLParams] over [paramMap], with
    [g] for what the script makes of the parameter's text. *)
Definition fill {num : Type} (urlParams : string -> option string)
    (g : string -> string -> string) (d : Document num)
    (entry : string * string) : Document num :=
  match urlParams (fst entry) with
  | Some value => set_value (snd entry) (g (snd entry) value) d
  | None => d
  end.

(** * Properties *)

Unset Implicit Arguments.

(** The binary64 values of the literals of the two scripts. *)
Lemma f64_literals :
  (f64_lit 2913 5 = 0x1.dd441355475a3p-6
   /\ f64_lit 3 2 = 0x1.eb851eb851eb8p-6
   /\ f64_lit 139 2 = 0x1.63d70a3d70a3dp+0
   /\ f64_lit 100 0 = 100
   /\ f64_lit 12 0 = 12
   /\ f64_lit 0 0 = 0)%float.
Proof. repeat split; vm_compute; reflexivity. Qed.

(** ** Worked examples *)

Section WorkedExamples.
Let iq : Inputs Q := example_inputs (num_lit 50 0).
Let i64 : Inputs float := example_inputs (num_lit 50 0).

(** C1. With a volume of 10000, half of it on credit cards, a competitor
    rate of 3 percent and fixed costs of 100 on both sides, the formula of
    [script.js] gives a credit card volume of 5000, a surcharge of 150,
    processing costs of 145.65 against 300, total costs of 245.65 against
    400, and savings of 154.35 a month and 1852.20 a year.  In exact
    arithmetic these are the values.  In binary64 arithmetic the volume,
    the surcharge and the competitor's costs are these values, the four
    amounts that involve the rate 0.02913 are the stated amounts to the
    cent, and [calculateROI] displays them so. *)
Theorem C1_formula_worked_example :
  (Formula.creditCardVolume iq == 5000
   /\ Formula.surchargeCollected iq == 150
   /\ exists data,
        Formula.calculate iq = Update data
        /\ Data.diProcessing data == 145.65
        /\ Data.diTotal data == 245.65
        /\ Data.competitorProcessing data == 300
        /\ Data.competitorTotal data == 400
        /\ Data.monthlySavings data == 154.35
        /\ Data.annualSavings data == 1852.20)%Q
  /\ (Formula.creditCardVolume i64 = 5000%float
      /\ Formula.surchargeCollected i64 = 150%float
      /\ exists data,
           Formula.calculate i64 = Update data
           /\ f64_cents (Data.diProcessing data) = Some 14565
           /\ f64_cents (Data.diTotal data) = Some 24565
           /\ Data.competitorProcessing data = 300%float
           /\ Data.competitorTotal data = 400%float
           /\ f64_cents (Data.monthlySavings data) = Some 15435
           /\ f64_cents (Data.annualSavings data) = Some 185220)%Z
  /\ map (textContent (Formula.run (exampleEvents "50") blankPage))
       resultFields
     = ["$100.00"; "$300.00"; "$400.00"; "$100.00"; "$145.65"; "$245.65";
        "$154.35"; "$1,852.20"].
Proof.
  split; [| split].
  - split; [vm_compute; reflexivity |].
    split; [vm_compute; reflexivity |].
    eexists; split; [reflexivity |].
    repeat split; vm_compute; reflexivity.
  - split; [vm_compute; reflexivity |].
    split; [vm_compute; reflexivity |].
    eexists; split; [vm_compute; reflexivity |].
    repeat split; vm_compute; reflexivity.
  - vm_compute; reflexivity.
Qed.

(** C2. With the same volume, competitor rate and fixed costs, and any
    credit card percentage, the flat rate of [part_000] gives a processing
    cost of 139.00, a total cost of 239.00, and savings of 161.00 a month
    and 1932.00 a year: exactly so in exact arithmetic, and in binary64
    arithmetic as well. *)
Theorem C2_flat_rate_worked_example :
  (forall percentage : Q,
     exists data,
       FlatRate.calculate (example_inputs percentage) = Update data
       /\ Data.diProcessing data == 139
       /\ Data.diTotal data == 239
       /\ Data.monthlySavings data == 161
       /\ Data.annualSavings data == 1932)%Q
  /\ (forall percentage : float,
       exists data,
         FlatRate.calculate (example_inputs percentage) = Update data
         /\ Data.diProcessing data = 139
         /\ Data.diTotal data = 239
         /\ Data.monthlySavings data = 161
         /\ Data.annualSavings data = 1932)%float.
Proof.
  split; intro percentage.
  - eexists; split; [reflexivity |].
    repeat split; vm_compute; reflexivity.
  - eexists; split; [vm_compute; reflexivity |].
    repeat split; vm_compute; reflexivity.
Qed.
End WorkedExamples.

(** ** The formulas and the validation, for any arithmetic *)

Section ForAnyNumber.
Context {num : Type} `{Number num} `{Browser num}.
Local Open Scope js_scope.

(** C3. For every input that passes the validation, both variants report
    a competitor processing cost of monthlyVolume x (competitorRate/100),
    a competitor total of the competitor's fixed cost plus that, and an
    own total of the own fixed cost plus the own processing cost; in the
    formula variant the own processing cost is
    ((monthlyVolume + surchargeCollected) x 0.02913)
    - ((creditCardVolume + surchargeCollected) x 0.02913), with
    creditCardVolume = monthlyVolume x (creditCardPercentage/100) and
    surchargeCollected = creditCardVolume x 0.03. *)
Theorem C3_cost_formulas (m : PricingModel) (i : Inputs num) :
  (monthlyVolume i <=? num_lit 0 0) = false ->
  let creditCardVolume :=
    monthlyVolume i * (creditCardPercentage i / num_lit 100 0) in
  let surchargeCollected := creditCardVolume * num_lit 3 2 in
  exists data,
    compute m i = Update data
    /\ Data.competitorProcessing data
       = monthlyVolume i * (competitorRate i / num_lit 100 0)
    /\ Data.competitorTotal data
       = competitorSaas i + Data.competitorProcessing data
    /\ Data.diTotal data = diCost i + Data.diProcessing data
    /\ (m = FormulaModel ->
        Formula.creditCardVolume i = creditCardVolume
        /\ Formula.surchargeCollected i = surchargeCollected
        /\ Data.diProcessing data
           = ((monthlyVolume i + surchargeCollected) * num_lit 2913 5)
             - ((creditCardVolume + surchargeCollected) * num_lit 2913 5)).
Proof.
  intros valid creditCardVolume surchargeCollected.
  destruct m; cbn [compute];
    unfold Formula.calculate, FlatRate.calculate; rewrite valid;
    eexists; (split; [reflexivity |]); cbn [Data.competitorProcessing
      Data.competitorTotal Data.diTotal Data.diProcessing].
  - repeat split; reflexivity.
  - repeat split; reflexivity || discriminate.
Qed.

(** C4. When the monthly volume read from the form is zero or negative,
    [calculateROI] raises the one alert it has and returns: the
    arithmetic yields no result object, no result field of the page is
    written, the results section is not shown and no timer is started. *)
Theorem C4_invalid_volume_only_alerts (m : PricingModel) (d : Document num) :
  (monthlyVolume (readInputsOf m d) <=? num_lit 0 0) = true ->
  compute m (readInputsOf m d) = Alert invalidVolumeMessage
  /\ calculateROIOf m d = alert invalidVolumeMessage d
  /\ alerts (calculateROIOf m d) = invalidVolumeMessage :: alerts d
  /\ textContent (calculateROIOf m d) = textContent d
  /\ display (calculateROIOf m d) = display d
  /\ timers (calculateROIOf m d) = timers d
  /\ value (calculateROIOf m d) = value d.
Proof.
  intros invalid.
  assert (outcome : compute m (readInputsOf m d) = Alert invalidVolumeMessage).
  { destruct m; cbn [compute readInputsOf] in *;
      unfold Formula.calculate, FlatRate.calculate; rewrite invalid;
      reflexivity. }
  assert (page : calculateROIOf m d = alert invalidVolumeMessage d).
  { destruct m; cbn [compute readInputsOf calculateROIOf] in *;
      unfold Formula.calculateROI, FlatRate.calculateROI;
      rewrite outcome; reflexivity. }
  rewrite page. repeat split; assumption || reflexivity.
Qed.

(** C7. In every result either variant produces, the annual savings are
    the monthly savings times 12. *)
Theorem C7_annual_is_twelve_months (m : PricingModel) (i : Inputs num)
    (data : Data.t num) :
  compute m i = Update data ->
  Data.annualSavings data = Data.monthlySavings data * num_lit 12 0.
Proof.
  destruct m; cbn [compute];
    unfold Formula.calculate, FlatRate.calculate;
    destruct (monthlyVolume i <=? num_lit 0 0); intros produced;
    inversion produced; reflexivity.
Qed.

(** C9. The flat rate is charged on the whole volume: the own processing
    cost is monthlyVolume x (1.39/100), and two inputs that differ only
    in the credit card percentage give the same own processing cost, own
    total cost, monthly savings and annual savings - the same outcome
    altogether. *)
Theorem C9_flat_rate_ignores_card_share (i1 i2 : Inputs num) :
  monthlyVolume i1 = monthlyVolume i2 ->
  competitorRate i1 = competitorRate i2 ->
  competitorSaas i1 = competitorSaas i2 ->
  diCost i1 = diCost i2 ->
  FlatRate.diProcessingCost i1
    = monthlyVolume i1 * (num_lit 139 2 / num_lit 100 0)
  /\ FlatRate.diProcessingCost i1 = FlatRate.diProcessingCost i2
  /\ FlatRate.diTotalCost i1 = FlatRate.diTotalCost i2
  /\ FlatRate.monthlySavings i1 = FlatRate.monthlySavings i2
  /\ FlatRate.annualSavings i1 = FlatRate.annualSavings i2
  /\ FlatRate.calculate i1 = FlatRate.calculate i2.
Proof.
  intros volume rate saas cost.
  unfold FlatRate.calculate, FlatRate.annualSavings, FlatRate.monthlySavings,
    FlatRate.diTotalCost, FlatRate.diProcessingCost,
    FlatRate.competitorTotalCost, FlatRate.competitorProcessingCost,
    FlatRate.competitorRateDecimal.
  rewrite volume, rate, saas, cost.
  repeat split; reflexivity.
Qed.
End ForAnyNumber.

Lemma C3_cost_formulas_witness :
  let i : Inputs Q := example_inputs 50%Q in
  (monthlyVolume i <=? num_lit 0 0)%js = false
  /\ exists data,
       Formula.calculate i = Update data
       /\ Data.diTotal data = (diCost i + Data.diProcessing data)%Q.
Proof.
  intro i.
  assert (valid : (monthlyVolume i <=? num_lit 0 0)%js = false) by reflexivity.
  split; [exact valid |].
  destruct (C3_cost_formulas FormulaModel i valid)
    as [data [produced [_ [_ [total _]]]]].
  exists data. split; [exact produced | exact total].
Defined.

Lemma C4_invalid_volume_only_alerts_witness :
  let d := Formula.run [Input "monthlyVolume" "0"] blankPage in
  (monthlyVolume (readInputsOf FormulaModel d) <=? num_lit 0 0)%js = true
  /\ Formula.calculateROI d = alert invalidVolumeMessage d
  /\ textContent (Formula.calculateROI d) = textContent d.
Proof.
  intro d.
  assert (invalid :
    (monthlyVolume (readInputsOf FormulaModel d) <=? num_lit 0 0)%js = true)
    by reflexivity.
  split; [exact invalid |].
  destruct (C4_invalid_volume_only_alerts FormulaModel d invalid)
    as [_ [page [_ [text _]]]].
  split; [exact page | exact text].
Defined.

Lemma C7_annual_is_twelve_months_witness :
  let i : Inputs Q := example_inputs 50%Q in
  exists data,
    FlatRate.calculate i = Update data
    /\ Data.annualSavings data = (Data.monthlySavings data * Qlit 12 0)%Q.
Proof.
  intro i.
  destruct (FlatRate.calculate i) as [message | data] eqn:produced;
    [discriminate produced |].
  exists data. split; [reflexivity |].
  exact (C7_annual_is_twelve_months FlatRateModel i data produced).
Defined.

Lemma C9_flat_rate_ignores_card_share_witness :
  FlatRate.calculate (example_inputs 20%Q)
  = FlatRate.calculate (example_inputs 80%Q).
Proof.
  apply (C9_flat_rate_ignores_card_share
           (example_inputs 20%Q) (example_inputs 80%Q)); reflexivity.
Defined.

(** ** The algebra of the formulas, in exact arithmetic *)

Local Open Scope Q_scope.

Ltac Qliterals :=
  change (Qlit 0 0) with 0 in *;
  change (Qlit 100 0) with 100 in *;
  change (Qlit 12 0) with 12 in *;
  change (Qlit 3 2) with (3 # 100) in *;
  change (Qlit 139 2) with (139 # 100) in *;
  change (Qlit 2913 5) with (2913 # 100000) in *;
  unfold Qdiv in *;
  change (/ 100) with (1 # 100) in *.

Ltac formula_locals :=
  unfold Formula.divisors, Formula.annualSavings, Formula.monthlySavings,
    Formula.diTotalCost, Formula.diProcessingCost, Formula.effectiveRate,
    Formula.adjustedVolume, Formula.feesWithSurcharging,
    Formula.surchargeCollected, Formula.baseProcessingRate,
    Formula.competitorTotalCost, Formula.competitorProcessingCost,
    Formula.competitorRateDecimal, Formula.debitVolume,
    Formula.creditCardVolume in *;
  cbn [num_add num_sub num_mul num_div num_lit QNumber] in *.

Ltac flat_locals :=
  unfold FlatRate.annualSavings, FlatRate.monthlySavings,
    FlatRate.diTotalCost, FlatRate.diProcessingCost,
    FlatRate.DI_SURCHARGE_RATE_DECIMAL, FlatRate.DI_SURCHARGE_RATE,
    FlatRate.competitorTotalCost, FlatRate.competitorProcessingCost,
    FlatRate.competitorRateDecimal, FlatRate.debitVolume,
    FlatRate.creditCardVolume in *;
  cbn [num_add num_sub num_mul num_div num_lit QNumber] in *.

Lemma positive_volume_is_valid (x : Q) :
  0 < x -> (x <=? num_lit 0 0)%js = false.
Proof.
  intros positive. cbn [num_le num_lit QNumber]. Qliterals.
  destruct (Qle_bool x 0) eqn:test; [| reflexivity].
  apply Qle_bool_iff in test. lra.
Qed.

Lemma card_volume_bounds (volume percentage : Q) :
  0 <= volume -> 0 <= percentage ->
  0 <= volume * (percentage * (1 # 100))
  /\ (percentage <= 100 -> volume * (percentage * (1 # 100)) <= volume).
Proof.
  intros volume_pos percentage_pos. split.
  - apply Qmult_le_0_compat; lra.
  - intros bounded.
    assert (volume * (percentage * (1 # 100)) <= volume * 1)
      by (apply Qmult_le_compat_nonneg; split; lra).
    lra.
Qed.

(** The fees of the formula are the base rate on the debit volume: the
    surcharge enters both terms of the difference and cancels. *)
Lemma fees_are_debit_fees (i : Inputs Q) :
  Formula.feesWithSurcharging i
  == Formula.debitVolume i * Formula.baseProcessingRate.
Proof. formula_locals. ring. Qed.

(** C5. The surcharge netting of the formula leaves the base rate on the
    debit volume plus a residual, the fee on the surcharge in the blended
    total less the fee on the surcharge in the card total; the residual
    is zero.  With a credit card percentage of 100 the credit card volume
    is the whole volume and the own processing cost is zero: the
    surcharge offsets the card fees in full.  On the volume of the worked
    example the binary64 value is zero as well. *)
Theorem C5_surcharge_netting (i : Inputs Q) :
  let residual :=
    Formula.surchargeCollected i * Formula.baseProcessingRate
    - Formula.surchargeCollected i * Formula.baseProcessingRate in
  Formula.diProcessingCost i
    == Formula.debitVolume i * (2913 # 100000) + residual
  /\ residual == 0
  /\ (creditCardPercentage i == 100 ->
      Formula.creditCardVolume i == monthlyVolume i
      /\ Formula.debitVolume i == 0
      /\ Formula.diProcessingCost i == 0 + residual
      /\ Formula.diProcessingCost i == 0)
  /\ Formula.diProcessingCost
       (example_inputs (num_lit 100 0) : Inputs float) = 0%float.
Proof.
  intro residual. subst residual.
  split; [formula_locals; Qliterals; ring |].
  split; [ring |].
  split; [| vm_compute; reflexivity].
  intros full. formula_locals. Qliterals. rewrite full.
  repeat split; ring.
Qed.

Lemma C5_surcharge_netting_witness :
  let i : Inputs Q := example_inputs 100 in
  creditCardPercentage i == 100 /\ Formula.diProcessingCost i == 0.
Proof.
  intro i.
  assert (full : creditCardPercentage i == 100) by reflexivity.
  split; [exact full |].
  destruct (C5_surcharge_netting i) as [_ [_ [at_full _]]].
  destruct (at_full full) as [_ [_ [_ zero]]]. exact zero.
Defined.

(** C6, as the code has it.  [calculateROI] of [script.js] divides three
    times: the two percentages by the constant 100, and the fees by the
    adjusted volume, monthlyVolume + surchargeCollected.  No test stands
    before the last division.  With a positive volume and a credit card
    percentage that is not negative, every divisor is positive. *)
Theorem C6_divisors_positive (i : Inputs Q) :
  0 < monthlyVolume i ->
  0 <= creditCardPercentage i ->
  Formula.divisors i = [Qlit 100 0; Qlit 100 0; Formula.adjustedVolume i]
  /\ Formula.adjustedVolume i
     == monthlyVolume i + Formula.surchargeCollected i
  /\ forall divisor, In divisor (Formula.divisors i) -> 0 < divisor.
Proof.
  intros volume share.
  split; [reflexivity |]. split; [reflexivity |].
  intros divisor listed. formula_locals. Qliterals.
  destruct (card_volume_bounds (monthlyVolume i) (creditCardPercentage i))
    as [card _]; [lra | exact share |].
  destruct listed as [<- | [<- | [<- | []]]]; lra.
Qed.

Lemma C6_divisors_positive_witness :
  let i : Inputs Q := example_inputs 50 in
  0 < monthlyVolume i /\ 0 <= creditCardPercentage i
  /\ 0 < Formula.adjustedVolume i.
Proof.
  intro i.
  assert (volume : 0 < monthlyVolume i) by reflexivity.
  assert (share : 0 <= creditCardPercentage i) by discriminate.
  split; [exact volume |]. split; [exact share |].
  destruct (C6_divisors_positive i volume share) as [_ [_ positive]].
  apply positive. right. right. left. reflexivity.
Defined.

(** C6, as stated, fails: with a volume of 3 and a credit card percentage
    of -10000/3 the volume is positive, the validation lets the input
    through, and the adjusted volume - the divisor of the effective
    rate - is zero.  The same happens in binary64 arithmetic, where the
    quotient comes out infinite. *)
Lemma C6_effective_rate_divisor_can_be_zero :
  ~ (forall i : Inputs Q,
       0 < monthlyVolume i ->
       forall divisor, In divisor (Formula.divisors i) -> ~ divisor == 0)
  /\ (let i : Inputs float := zeroDivisorInputs in
      PrimFloat.ltb 0 (monthlyVolume i) = true
      /\ (exists data, Formula.calculate i = Update data)
      /\ In (Formula.adjustedVolume i) (Formula.divisors i)
      /\ Formula.adjustedVolume i = 0%float
      /\ Formula.effectiveRate i = PrimFloat.infinity).
Proof.
  split.
  - intros never.
    apply (never zeroDivisorInputs) with (divisor := Formula.adjustedVolume
                                                       zeroDivisorInputs).
    + reflexivity.
    + right. right. left. reflexivity.
    + reflexivity.
  - cbv zeta. split; [vm_compute; reflexivity |].
    split; [eexists; vm_compute; reflexivity |].
    split; [right; right; left; reflexivity |].
    split; vm_compute; reflexivity.
Qed.

(** C8, as the code has it.  For a positive volume and inputs that are
    not negative, both variants produce a result whose competitor total
    is not negative; the own total is not negative in the flat rate
    variant, and in the formula variant when the credit card percentage
    is at most 100. *)
Theorem C8_totals_nonnegative (m : PricingModel) (i : Inputs Q) :
  0 < monthlyVolume i ->
  0 <= creditCardPercentage i ->
  0 <= competitorRate i ->
  0 <= competitorSaas i ->
  0 <= diCost i ->
  exists data,
    compute m i = Update data
    /\ 0 <= Data.competitorTotal data
    /\ (m = FlatRateModel -> 0 <= Data.diTotal data)
    /\ (m = FormulaModel -> creditCardPercentage i <= 100 ->
        0 <= Data.diTotal data).
Proof.
  intros volume share rate saas cost.
  pose proof (positive_volume_is_valid (monthlyVolume i) volume) as valid.
  destruct (card_volume_bounds (monthlyVolume i) (competitorRate i))
    as [competitor _]; [lra | exact rate |].
  destruct m; cbn [compute];
    unfold Formula.calculate, FlatRate.calculate; rewrite valid;
    eexists; (split; [reflexivity |]);
    cbn [Data.diTotal Data.competitorTotal].
  - split; [formula_locals; Qliterals; lra |].
    split; [discriminate |].
    intros _ bounded.
    destruct (card_volume_bounds (monthlyVolume i) (creditCardPercentage i))
      as [card below]; [lra | exact share |].
    specialize (below bounded).
    formula_locals. Qliterals. lra.
  - split; [flat_locals; Qliterals; lra |].
    split; [| discriminate].
    intros _. flat_locals. Qliterals. lra.
Qed.

Lemma C8_totals_nonnegative_witness :
  let i : Inputs Q := example_inputs 50 in
  (0 < monthlyVolume i /\ 0 <= creditCardPercentage i
   /\ 0 <= competitorRate i /\ 0 <= competitorSaas i /\ 0 <= diCost i
   /\ creditCardPercentage i <= 100)
  /\ exists data,
       compute FormulaModel i = Update data
       /\ 0 <= Data.diTotal data
       /\ 0 <= Data.competitorTotal data.
Proof.
  intro i.
  assert (volume : 0 < monthlyVolume i) by reflexivity.
  assert (share : 0 <= creditCardPercentage i) by discriminate.
  assert (rate : 0 <= competitorRate i) by discriminate.
  assert (saas : 0 <= competitorSaas i) by discriminate.
  assert (cost : 0 <= diCost i) by discriminate.
  assert (bounded : creditCardPercentage i <= 100) by discriminate.
  split; [repeat split; assumption |].
  destruct (C8_totals_nonnegative FormulaModel i volume share rate saas cost)
    as [data [produced [competitor [_ own]]]].
  exists data. split; [exact produced |].
  split; [exact (own eq_refl bounded) | exact competitor].
Defined.

(** C8, as stated, fails in the formula variant: a volume of 10000 with a
    credit card percentage of 200 and nothing else to pay has no negative
    input, and its own total cost is -291.30.  Binary64 arithmetic gives
    a negative own total as well. *)
Lemma C8_own_total_negative_above_100_percent :
  ~ (forall (m : PricingModel) (i : Inputs Q) (data : Data.t Q),
       0 < monthlyVolume i ->
       0 <= creditCardPercentage i ->
       0 <= competitorRate i ->
       0 <= competitorSaas i ->
       0 <= diCost i ->
       compute m i = Update data ->
       0 <= Data.diTotal data /\ 0 <= Data.competitorTotal data)
  /\ (exists data,
        Formula.calculate (doubleShareInputs : Inputs Q) = Update data
        /\ Data.diTotal data == -291.3)
  /\ (exists data,
        Formula.calculate (doubleShareInputs : Inputs float) = Update data
        /\ PrimFloat.ltb (Data.diTotal data) 0 = true
        /\ f64_cents (Data.diTotal data) = Some (-29130)%Z).
Proof.
  split; [| split].
  - intros always.
    pose (i := doubleShareInputs : Inputs Q).
    assert (volume : 0 < monthlyVolume i) by reflexivity.
    assert (share : 0 <= creditCardPercentage i) by discriminate.
    assert (rate : 0 <= competitorRate i) by discriminate.
    assert (saas : 0 <= competitorSaas i) by discriminate.
    assert (cost : 0 <= diCost i) by discriminate.
    destruct (always FormulaModel i _ volume share rate saas cost eq_refl)
      as [own _].
    vm_compute in own. apply own. reflexivity.
  - eexists. split; [reflexivity |]. vm_compute. reflexivity.
  - eexists. split; [vm_compute; reflexivity |].
    split; vm_compute; reflexivity.
Qed.

(** ** The listeners *)

(** C10.  The blur listener of a percentage field brings the number it
    parses into the interval from 0 to 100, and [calculateROI] itself
    does no clamping: it reads the fields as they stand.  The Enter key
    calls [calculateROI] without a blur, so a percentage of 150 typed
    into the field reaches the calculation as 150, in both variants, and
    the page shows the negative processing cost that follows from it;
    after a blur of the field the same keypress calculates with 100. *)
Theorem C10_enter_key_skips_the_clamp :
  (forall x : Q,
     exists y, clampPercentage (Some x) = Some y /\ 0 <= y /\ y <= 100)
  /\ map (@creditCardPercentage Q)
       (Formula.invocations (exampleEvents "150") blankPage) = [150]
  /\ map (@creditCardPercentage Q)
       (FlatRate.invocations (exampleEvents "150") blankPage) = [150]
  /\ textContent (Formula.run (exampleEvents "150") blankPage)
       "diProcessing" = "-$145.65"
  /\ map (@creditCardPercentage Q)
       (Formula.invocations
          (Input "creditCardPercentage" "150" :: Blur "creditCardPercentage"
           :: [Keypress "creditCardPercentage" "Enter"]) blankPage) = [100].
Proof.
  split.
  - intros x. cbn [clampPercentage num_lt num_lit QNumber]. Qliterals.
    eexists. split; [reflexivity |].
    destruct (Qle_bool 0 x) eqn:low; cbn [negb].
    + apply Qle_bool_iff in low.
      destruct (Qle_bool x 100) eqn:high; cbn [negb].
      * apply Qle_bool_iff in high. split; assumption.
      * split; discriminate.
    + change (negb (Qle_bool 0 100)) with false. cbv iota.
      split; discriminate.
  - repeat split; vm_compute; reflexivity.
Qed.

(** * Further properties of the scripts *)

(** ** The texts of the form fields *)

Lemma stripCommas_app (a b : string) :
  stripCommas (a ++ b) = (stripCommas a ++ stripCommas b)%string.
Proof.
  induction a as [| c a IH]; cbn [stripCommas append]; [reflexivity |].
  destruct (Ascii.eqb c ","%char); cbn [append]; rewrite IH; reflexivity.
Qed.

Lemma stripCommas_fixed (s : string) :
  occurs ","%char s = false -> stripCommas s = s.
Proof.
  induction s as [| c s IH]; cbn [occurs stripCommas]; [reflexivity |].
  intros none. apply orb_false_iff in none. destruct none as [head rest].
  rewrite head, (IH rest). reflexivity.
Qed.

Lemma keepDigitsAndDots_stripCommas (s : string) :
  keepDigitsAndDots (stripCommas s) = keepDigitsAndDots s.
Proof.
  induction s as [| c s IH]; cbn [stripCommas keepDigitsAndDots];
    [reflexivity |].
  destruct (Ascii.eqb c ","%char) eqn:comma.
  - apply Ascii.eqb_eq in comma. subst c. exact IH.
  - cbn [keepDigitsAndDots]. rewrite IH. reflexivity.
Qed.

Lemma stripCommas_clean (s : string) :
  occurs ","%char (stripCommas s) = false.
Proof.
  induction s as [| c s IH]; cbn [stripCommas]; [reflexivity |].
  destruct (Ascii.eqb c ","%char) eqn:comma; [exact IH |].
  cbn [occurs]. rewrite comma, IH. reflexivity.
Qed.

Lemma keepDigitsAndDots_kept (s : string) :
  allChars isDigitOrDot (keepDigitsAndDots s) = true.
Proof.
  induction s as [| c s IH]; cbn [keepDigitsAndDots]; [reflexivity |].
  destruct (isDigitOrDot c) eqn:keep; [| exact IH].
  cbn [allChars]. rewrite keep, IH. reflexivity.
Qed.

Lemma keepDigitsAndDots_fixed (s : string) :
  allChars isDigitOrDot s = true -> keepDigitsAndDots s = s.
Proof.
  induction s as [| c s IH]; cbn [allChars keepDigitsAndDots];
    [reflexivity |].
  intros all. apply andb_true_iff in all. destruct all as [head rest].
  rewrite head, (IH rest). reflexivity.
Qed.

Lemma keepDigitsAndDots_app (a b : string) :
  keepDigitsAndDots (a ++ b)
  = (keepDigitsAndDots a ++ keepDigitsAndDots b)%string.
Proof.
  induction a as [| c a IH]; cbn [keepDigitsAndDots append]; [reflexivity |].
  destruct (isDigitOrDot c); cbn [append]; rewrite IH; reflexivity.
Qed.

(** X1.  [replace(/,/g, '')] removes the commas and nothing else: no
    comma is left, a text without commas is returned as it is, a single
    character other than a comma is kept, the function distributes over
    concatenation, and a comma inserted anywhere is not seen.
    [replace(/[^0-9.]/g, '')] keeps the digits and dots and nothing
    else: only digits and dots are left, a text of digits and dots is
    returned as it is, a single character is kept exactly when it is a
    digit or a dot, the function distributes over concatenation, and
    commas removed beforehand make no difference to it. *)
Theorem X1_field_texts_are_cleaned (a b : string) (c : ascii) :
  occurs ","%char (stripCommas a) = false
  /\ stripCommas (stripCommas a) = stripCommas a
  /\ (occurs ","%char a = false -> stripCommas a = a)
  /\ stripCommas (String c "")
     = (if Ascii.eqb c ","%char then "" else String c "")
  /\ stripCommas (a ++ b) = (stripCommas a ++ stripCommas b)%string
  /\ stripCommas (a ++ "," ++ b) = stripCommas (a ++ b)
  /\ allChars isDigitOrDot (keepDigitsAndDots a) = true
  /\ keepDigitsAndDots (keepDigitsAndDots a) = keepDigitsAndDots a
  /\ (allChars isDigitOrDot a = true -> keepDigitsAndDots a = a)
  /\ keepDigitsAndDots (String c "")
     = (if isDigitOrDot c then String c "" else "")
  /\ keepDigitsAndDots (a ++ b)
     = (keepDigitsAndDots a ++ keepDigitsAndDots b)%string
  /\ keepDigitsAndDots (stripCommas a) = keepDigitsAndDots a.
Proof.
  split; [apply stripCommas_clean |].
  split; [apply stripCommas_fixed, stripCommas_clean |].
  split; [apply stripCommas_fixed |].
  split; [cbn [stripCommas]; destruct (Ascii.eqb c ","%char); reflexivity |].
  split; [apply stripCommas_app |].
  split; [rewrite !stripCommas_app; reflexivity |].
  split; [apply keepDigitsAndDots_kept |].
  split; [apply keepDigitsAndDots_fixed, keepDigitsAndDots_kept |].
  split; [apply keepDigitsAndDots_fixed |].
  split; [cbn [keepDigitsAndDots]; destruct (isDigitOrDot c); reflexivity |].
  split; [apply keepDigitsAndDots_app |].
  apply keepDigitsAndDots_stripCommas.
Qed.

(** The statement at a text with a space and no comma. *)
Lemma X1_field_texts_are_cleaned_witness :
  occurs ","%char "1 000" = false /\ stripCommas "1 000" = "1 000"
  /\ allChars isDigitOrDot "12.50" = true
  /\ keepDigitsAndDots "12.50" = "12.50".
Proof.
  assert (plain : occurs ","%char "1 000" = false) by reflexivity.
  assert (digits : allChars isDigitOrDot "12.50" = true) by reflexivity.
  destruct (X1_field_texts_are_cleaned "1 000" "" " "%char)
    as [_ [_ [fixed _]]].
  destruct (X1_field_texts_are_cleaned "12.50" "" " "%char)
    as [_ [_ [_ [_ [_ [_ [_ [_ [kept _]]]]]]]]].
  split; [exact plain |]. split; [exact (fixed plain) |].
  split; [exact digits | exact (kept digits)].
Defined.

Section PageProperties.
Context {num : Type} `{Number num} `{Browser num}.
Local Open Scope js_scope.

(** X2.  [calculateROI] of [script.js] does not see commas: two pages
    whose five field texts agree once the commas are removed are read as
    the same inputs and calculate the same outcome. *)
Theorem X2_commas_are_not_read (d1 d2 : Document num) :
  (forall id, In id formInputs ->
     stripCommas (fieldText d1 id) = stripCommas (fieldText d2 id)) ->
  Formula.readInputs d1 = Formula.readInputs d2
  /\ Formula.calculate (Formula.readInputs d1)
     = Formula.calculate (Formula.readInputs d2).
Proof.
  intros same.
  assert (inputs : Formula.readInputs d1 = Formula.readInputs d2).
  { unfold Formula.readInputs, fieldText in *.
    rewrite (same "monthlyVolume"), (same "creditCardPercentage"),
      (same "competitorRate"), (same "diCost");
      try (cbn [formInputs In]; tauto).
    rewrite <- (keepDigitsAndDots_stripCommas
                  (orElse (value d1 "competitorSaas") _)),
      (same "competitorSaas"), keepDigitsAndDots_stripCommas;
      [reflexivity | cbn [formInputs In]; tauto]. }
  split; [exact inputs | rewrite inputs; reflexivity].
Qed.

(** X4.  When the text of the volume field is not a number for
    [parseFloat], the volume is read as 0 and [calculateROI] only raises
    its alert (in an arithmetic where 0 <= 0 holds, as it does for the
    rationals and for binary64). *)
Theorem X4_unreadable_volume_alerts (m : PricingModel) (d : Document num) :
  (num_lit 0 0 <=? num_lit 0 0) = true ->
  parseFloat
    (match m with
     | FormulaModel => stripCommas (fieldText d "monthlyVolume")
     | FlatRateModel => fieldText d "monthlyVolume"
     end) = None ->
  monthlyVolume (readInputsOf m d) = num_lit 0 0
  /\ calculateROIOf m d = alert invalidVolumeMessage d.
Proof.
  intros zero unreadable.
  assert (volume : monthlyVolume (readInputsOf m d) = num_lit 0 0).
  { destruct m; cbn [readInputsOf Formula.readInputs FlatRate.readInputs
                       monthlyVolume]; unfold fieldText in unreadable;
      rewrite unreadable; reflexivity. }
  split; [exact volume |].
  destruct m; cbn [calculateROIOf readInputsOf] in *;
    unfold Formula.calculateROI, FlatRate.calculateROI,
      Formula.calculate, FlatRate.calculate;
    rewrite volume, zero; reflexivity.
Qed.

Lemma calculateROIOf_present (m : PricingModel) (d : Document num) :
  calculateROIOf m d = present (compute m (readInputsOf m d)) d.
Proof. destruct m; reflexivity. Qed.

Lemma present_keeps_form (o : Outcome num) (d : Document num) :
  value (present o d) = value d /\ placeholder (present o d) = placeholder d.
Proof. destruct o; split; reflexivity. Qed.

Lemma readInputsOf_form (m : PricingModel) (d d' : Document num) :
  value d' = value d -> placeholder d' = placeholder d ->
  readInputsOf m d' = readInputsOf m d.
Proof.
  intros values holders.
  destruct m; cbn [readInputsOf];
    unfold Formula.readInputs, FlatRate.readInputs;
    rewrite values, holders; reflexivity.
Qed.

Lemma compute_alert (m : PricingModel) (i : Inputs num) (message : string) :
  compute m i = Alert message -> message = invalidVolumeMessage.
Proof.
  destruct m; cbn [compute]; unfold Formula.calculate, FlatRate.calculate;
    destruct (monthlyVolume i <=? num_lit 0 0); intros outcome;
    inversion outcome; reflexivity.
Qed.

(** X5.  [calculateROI] never changes a form field: values and
    placeholders are as before, whatever the outcome, so a second call
    reads the same inputs. *)
Theorem X5_calculation_keeps_the_form (m : PricingModel) (d : Document num) :
  value (calculateROIOf m d) = value d
  /\ placeholder (calculateROIOf m d) = placeholder d
  /\ readInputsOf m (calculateROIOf m d) = readInputsOf m d.
Proof.
  rewrite calculateROIOf_present.
  destruct (present_keeps_form (compute m (readInputsOf m d)) d)
    as [values holders].
  split; [exact values |]. split; [exact holders |].
  apply readInputsOf_form; assumption.
Qed.

(** X6.  [calculateROI] writes no text outside the eight result fields
    and changes no display other than that of the results section: the
    text of every other element, the results section included, and the
    display of every other element, the result fields included, are as
    before. *)
Theorem X6_calculation_writes_results_only (m : PricingModel)
    (d : Document num) (id : string) :
  (isIn id resultFields = false ->
   textContent (calculateROIOf m d) id = textContent d id)
  /\ (id <> "resultsSection" ->
      display (calculateROIOf m d) id = display d id).
Proof.
  rewrite calculateROIOf_present.
  destruct (compute m (readInputsOf m d)) as [message | data];
    [split; reflexivity |].
  cbn [present updateResults animateValue start_timer set_display
         set_textContent textContent display].
  unfold upd. split.
  - intros other. cbn [isIn resultFields existsb] in other.
    repeat (apply orb_false_iff in other; destruct other as [? other]).
    repeat match goal with
           | miss : (id =? ?x) = false |- context [id =? ?x] =>
               rewrite miss
           end.
    reflexivity.
  - intros section. apply String.eqb_neq in section.
    rewrite section. reflexivity.
Qed.

(** X7.  When the inputs pass the validation, each of the eight result
    fields shows the currency format of its own amount, the results
    section is displayed as a grid, no alert is raised, and three timers
    are started: the count-up of the monthly savings over 1000 ms, the
    count-up of the annual savings over 1500 ms, both from 0, and the
    scroll to the results. *)
Theorem X7_valid_inputs_are_displayed (m : PricingModel) (d : Document num)
    (data : Data.t num) :
  compute m (readInputsOf m d) = Update data ->
  map (textContent (calculateROIOf m d)) resultFields
  = map formatCurrency
      [Data.competitorSaas data; Data.competitorProcessing data;
       Data.competitorTotal data; Data.diSaas data; Data.diProcessing data;
       Data.diTotal data; Data.monthlySavings data; Data.annualSavings data]
  /\ display (calculateROIOf m d) "resultsSection" = "grid"
  /\ alerts (calculateROIOf m d) = alerts d
  /\ timers (calculateROIOf m d)
     = ScrollIntoView "resultsSection"
       :: CountUp "annualSavings" (num_lit 0 0) (Data.annualSavings data)
            ((Data.annualSavings data - num_lit 0 0)
             / (num_lit 1500 0 / num_lit 16 0))
       :: CountUp "monthlySavings" (num_lit 0 0) (Data.monthlySavings data)
            ((Data.monthlySavings data - num_lit 0 0)
             / (num_lit 1000 0 / num_lit 16 0))
       :: timers d.
Proof.
  intros produced.
  assert (page : calculateROIOf m d = present (Update data) d).
  { destruct m; cbn [calculateROIOf compute readInputsOf] in *;
      unfold Formula.calculateROI, FlatRate.calculateROI;
      rewrite produced; reflexivity. }
  rewrite page. repeat split.
Qed.

(** X8.  Calling [calculateROI] a second time shows the same texts and
    displays as the first call, and adds to what the first call left:
    another alert, or the same three timers again - the intervals of the
    first call are not cleared. *)
Theorem X8_second_calculation (m : PricingModel) (d : Document num)
    (id : string) :
  let once := calculateROIOf m d in
  let twice := calculateROIOf m once in
  textContent twice id = textContent once id
  /\ display twice id = display once id
  /\ ((alerts twice = invalidVolumeMessage :: invalidVolumeMessage :: alerts d
       /\ timers twice = timers d)
      \/ (alerts twice = alerts d
          /\ exists t1 t2 t3,
               timers once = t1 :: t2 :: t3 :: timers d
               /\ timers twice = t1 :: t2 :: t3 :: timers once)).
Proof.
  intros once twice. subst twice once.
  rewrite (calculateROIOf_present m (calculateROIOf m d)).
  rewrite (readInputsOf_form m d (calculateROIOf m d));
    try (rewrite calculateROIOf_present; apply present_keeps_form).
  rewrite (calculateROIOf_present m d).
  destruct (compute m (readInputsOf m d)) as [message | data] eqn:outcome.
  - apply compute_alert in outcome. subst message.
    split; [reflexivity |]. split; [reflexivity |]. left.
    split; reflexivity.
  - split; [| split].
    + cbn [present updateResults animateValue start_timer set_display
             set_textContent textContent].
      unfold upd.
      repeat match goal with
             | |- context [(id =? ?x)%string] =>
                 destruct (id =? x)%string; cbv iota; [reflexivity |]
             end.
      reflexivity.
    + cbn [present updateResults animateValue start_timer set_display
             set_textContent display].
      unfold upd.
      destruct (id =? "resultsSection")%string; cbv iota; reflexivity.
    + right. split; [reflexivity |].
      cbn [present updateResults animateValue start_timer set_display
             set_textContent timers].
      do 3 eexists. split; reflexivity.
Qed.
End PageProperties.

(** The statement at two pages that differ in a thousands separator. *)
Lemma X2_commas_are_not_read_witness :
  let d1 := Formula.run [Input "monthlyVolume" "10,000"] blankPage in
  let d2 := Formula.run [Input "monthlyVolume" "10000"] blankPage in
  Formula.readInputs d1 = Formula.readInputs d2.
Proof.
  intros d1 d2.
  assert (same : forall id, In id formInputs ->
            stripCommas (fieldText d1 id) = stripCommas (fieldText d2 id)).
  { intros id listed. cbn [formInputs In] in listed.
    destruct listed as [<- | [<- | [<- | [<- | [<- | []]]]]]; reflexivity. }
  exact (proj1 (X2_commas_are_not_read d1 d2 same)).
Defined.

(** The statement at the empty page. *)
Lemma X4_unreadable_volume_alerts_witness :
  parseFloat (stripCommas (fieldText blankPage "monthlyVolume")) = None
  /\ Formula.calculateROI blankPage = alert invalidVolumeMessage blankPage.
Proof.
  assert (zero : (num_lit 0 0 <=? num_lit 0 0)%js = true) by reflexivity.
  assert (unreadable :
    parseFloat (stripCommas (fieldText blankPage "monthlyVolume")) = None)
    by reflexivity.
  split; [exact unreadable |].
  exact (proj2 (X4_unreadable_volume_alerts FormulaModel blankPage
                  zero unreadable)).
Defined.

(** The statement at the results section, whose text is kept, and at a
    result field, whose display is kept. *)
Lemma X6_calculation_writes_results_only_witness :
  let d := Formula.run (exampleEvents "50") blankPage in
  textContent (calculateROIOf FormulaModel d) "resultsSection"
  = textContent d "resultsSection"
  /\ display (calculateROIOf FormulaModel d) "monthlySavings"
     = display d "monthlySavings".
Proof.
  intro d.
  assert (other : isIn "resultsSection" resultFields = false) by reflexivity.
  assert (section : "monthlySavings" <> "resultsSection") by discriminate.
  pose proof (X6_calculation_writes_results_only FormulaModel d
                "resultsSection") as [text _].
  pose proof (X6_calculation_writes_results_only FormulaModel d
                "monthlySavings") as [_ shown].
  split; [exact (text other) | exact (shown section)].
Defined.

(** The statement at a page with a volume typed in. *)
Lemma X7_valid_inputs_are_displayed_witness :
  let d := Formula.run [Input "monthlyVolume" "10,000"] blankPage in
  exists data,
    compute FormulaModel (readInputsOf FormulaModel d) = Update data
    /\ display (calculateROIOf FormulaModel d) "resultsSection" = "grid".
Proof.
  intro d.
  destruct (compute FormulaModel (readInputsOf FormulaModel d))
    as [message | data] eqn:produced; [vm_compute in produced; discriminate |].
  exists data. split; [reflexivity |].
  pose proof (X7_valid_inputs_are_displayed FormulaModel d data produced)
    as [_ [shown _]].
  exact shown.
Defined.

(** ** Numbers read in binary64 arithmetic *)

Lemma orZero_f64 (x : option float) :
  orZero x = 0%float
  \/ (PrimFloat.is_nan (orZero x) = false
      /\ PrimFloat.is_zero (orZero x) = false).
Proof.
  destruct x as [v |]; cbn [orZero num_truthy F64Number];
    [| left; vm_compute; reflexivity].
  destruct (PrimFloat.is_nan v) eqn:nan; cbn [orb negb];
    [left; vm_compute; reflexivity |].
  destruct (PrimFloat.is_zero v) eqn:zero; cbn [negb];
    [left; vm_compute; reflexivity |].
  right. split; assumption.
Qed.

(** X3.  In binary64 arithmetic, whatever [parseFloat] returns, each of the
    five numbers [calculateROI] reads is either +0 or a number that is
    neither NaN nor a zero: NaN and -0 are replaced by 0 on reading. *)
Theorem X3_inputs_are_never_NaN (B : Browser float) (m : PricingModel)
    (d : Document float) :
  Forall (fun x : float =>
            x = 0%float
            \/ (PrimFloat.is_nan x = false /\ PrimFloat.is_zero x = false))
    [monthlyVolume (readInputsOf m d);
     creditCardPercentage (readInputsOf m d);
     competitorRate (readInputsOf m d);
     competitorSaas (readInputsOf m d);
     diCost (readInputsOf m d)].
Proof.
  destruct m; cbn [readInputsOf Formula.readInputs FlatRate.readInputs
                     monthlyVolume creditCardPercentage competitorRate
                     competitorSaas diCost];
    repeat (constructor; [apply orZero_f64 |]); constructor.
Qed.

(** ** The blur listeners, in exact arithmetic *)

(** X10.  The clamp of the percentage blur maps a negative number to 0, a
    number above 100 to 100, and leaves a number from 0 to 100 as it is;
    clamping a clamped number changes nothing, and NaN stays NaN. *)
Theorem X10_clamp_of_percentages (x : Q) :
  clampPercentage (None : option Q) = None
  /\ exists y,
       clampPercentage (Some x) = Some y
       /\ clampPercentage (Some y) = Some y
       /\ ((x < 0 /\ y = 0) \/ (100 < x /\ y = 100)
           \/ (0 <= x /\ x <= 100 /\ y = x)).
Proof.
  split; [reflexivity |].
  cbn [clampPercentage num_lt num_lit QNumber]. Qliterals.
  destruct (Qle_bool 0 x) eqn:low; cbn [negb].
  - destruct (Qle_bool x 100) eqn:high; cbn [negb].
    + exists x. split; [reflexivity |].
      rewrite low. cbn [negb]. rewrite high. cbn [negb].
      split; [reflexivity |].
      apply Qle_bool_iff in low. apply Qle_bool_iff in high.
      right. right. repeat split; assumption.
    + exists 100. split; [reflexivity |]. split; [reflexivity |].
      right. left. split; [| reflexivity].
      apply Qnot_le_lt. intros le. apply Qle_bool_iff in le. congruence.
  - exists 0. split; [reflexivity |]. split; [reflexivity |].
    left. split; [| reflexivity].
    apply Qnot_le_lt. intros le. apply Qle_bool_iff in le. congruence.
Qed.

Lemma clampPercentage_range (x y : Q) :
  clampPercentage (Some x) = Some y -> 0 <= y /\ y <= 100.
Proof.
  cbn [clampPercentage num_lt num_lit QNumber]. Qliterals.
  destruct (Qle_bool 0 x) eqn:low; cbn [negb].
  - destruct (Qle_bool x 100) eqn:high; cbn [negb];
      intros clamped; inversion clamped; subst y.
    + apply Qle_bool_iff in low. apply Qle_bool_iff in high. tauto.
    + split; discriminate.
  - change (negb (Qle_bool 0 100)) with false. cbv iota.
    intros clamped; inversion clamped. split; discriminate.
Qed.

Lemma orElse_nonempty (a b : string) : a <> "" -> orElse a b = a.
Proof. destruct a; [congruence | reflexivity]. Qed.

Lemma upd_same (f : string -> string) (id s : string) : upd f id s id = s.
Proof. unfold upd. rewrite String.eqb_refl. reflexivity. Qed.

Lemma upd_other (f : string -> string) (id s other : string) :
  other <> id -> upd f id s other = f other.
Proof.
  intros differ. unfold upd. apply String.eqb_neq in differ.
  rewrite differ. reflexivity.
Qed.

(** X11.  When a percentage field holds a number, leaving the field
    replaces its text by the clamped number and touches no other field;
    provided the browser reads that text back as the number (it prints
    numbers without commas and reads back what it prints), the
    calculation that follows reads a percentage from 0 to 100 from the
    field. *)
Theorem X11_blur_brings_percentage_in_range (B : Browser Q)
    (m : PricingModel) (d : Document Q) (id : string) (x y : Q) :
  In id percentageInputs ->
  parseFloat (value d id) = Some x ->
  clampPercentage (Some x) = Some y ->
  numberToString (Some y) <> "" ->
  stripCommas (numberToString (Some y)) = numberToString (Some y) ->
  parseFloat (numberToString (Some y)) = Some y ->
  let d' := dispatchOf m (Blur id) d in
  value d' id = numberToString (Some y)
  /\ (forall other, other <> id -> value d' other = value d other)
  /\ 0 <= percentageOf id (readInputsOf m d')
  /\ percentageOf id (readInputsOf m d') <= 100.
Proof.
  intros listed parsed clamped shown plain back d'.
  assert (blurred : d' = blurPercentage id d).
  { subst d'. cbn [percentageInputs In] in listed.
    destruct listed as [<- | [<- | []]]; destruct m; reflexivity. }
  assert (text : value d' id = numberToString (Some y)).
  { rewrite blurred. unfold blurPercentage. cbn [set_value value].
    rewrite upd_same, parsed, clamped. reflexivity. }
  split; [exact text |].
  split.
  { intros other differ. rewrite blurred. unfold blurPercentage.
    cbn [set_value value]. apply upd_other. exact differ. }
  assert (read : percentageOf id (readInputsOf m d') = orZero (Some y)).
  { cbn [percentageInputs In] in listed.
    destruct listed as [<- | [<- | []]]; destruct m;
      cbn [percentageOf String.eqb Ascii.eqb Bool.eqb readInputsOf
             Formula.readInputs FlatRate.readInputs creditCardPercentage
             competitorRate];
      rewrite text, (orElse_nonempty _ _ shown), ?plain, back;
      reflexivity. }
  rewrite read. destruct (clampPercentage_range x y clamped) as [low high].
  cbn [orZero num_truthy num_lit QNumber]. Qliterals.
  destruct (negb (Qeq_bool y 0)); split; assumption || discriminate.
Qed.

(** The statement at a field with 150 typed in. *)
Lemma X11_blur_brings_percentage_in_range_witness :
  let d := Formula.run [Input "creditCardPercentage" "150"] blankPage in
  let d' := dispatchOf FormulaModel (Blur "creditCardPercentage") d in
  parseFloat (value d "creditCardPercentage") = Some (Qlit 150 0)
  /\ value d' "creditCardPercentage" = numberToString (Some (Qlit 100 0)).
Proof.
  intros d d'.
  assert (listed : In "creditCardPercentage" percentageInputs)
    by (left; reflexivity).
  assert (parsed :
    parseFloat (value d "creditCardPercentage") = Some (Qlit 150 0))
    by (vm_compute; reflexivity).
  assert (clamped :
    clampPercentage (Some (Qlit 150 0)) = Some (Qlit 100 0))
    by (vm_compute; reflexivity).
  assert (shown : numberToString (Some (Qlit 100 0)) <> "")
    by (vm_compute; discriminate).
  assert (plain :
    stripCommas (numberToString (Some (Qlit 100 0)))
    = numberToString (Some (Qlit 100 0))) by (vm_compute; reflexivity).
  assert (back :
    parseFloat (numberToString (Some (Qlit 100 0))) = Some (Qlit 100 0))
    by (vm_compute; reflexivity).
  split; [exact parsed |].
  exact (proj1 (X11_blur_brings_percentage_in_range DecimalBrowser
                  FormulaModel d "creditCardPercentage" (Qlit 150 0)
                  (Qlit 100 0) listed parsed clamped shown plain back)).
Defined.

(** X12.  Leaving a monetary field never leaves a negative number in it.
    In [script.js] the field shows the locale format of a number that is
    not negative, 0 standing in for a text that is not a number; in
    [part_000] it shows a number that is not negative, or NaN for a text
    that is not a number. *)
Theorem X12_monetary_blur_is_not_negative (B : Browser Q) (d : Document Q)
    (id : string) :
  In id monetaryInputs ->
  (exists v, 0 <= v
     /\ value (Formula.dispatch (Blur id) d) id = toLocaleString v)
  /\ (value (FlatRate.dispatch (Blur id) d) id = numberToString None
      \/ exists v, 0 <= v
           /\ value (FlatRate.dispatch (Blur id) d) id
              = numberToString (Some v)).
Proof.
  intros listed.
  assert (formula : Formula.dispatch (Blur id) d = Formula.blurMonetary id d).
  { cbn [monetaryInputs In] in listed.
    destruct listed as [<- | [<- | [<- | []]]]; reflexivity. }
  assert (flat : FlatRate.dispatch (Blur id) d = FlatRate.blurMonetary id d).
  { cbn [monetaryInputs In] in listed.
    destruct listed as [<- | [<- | [<- | []]]]; reflexivity. }
  rewrite formula, flat.
  unfold Formula.blurMonetary, FlatRate.blurMonetary.
  cbn [set_value value num_lt num_lit QNumber]. rewrite !upd_same. Qliterals.
  split.
  - destruct (parseFloat (stripCommas (value d id))) as [x |].
    + destruct (Qle_bool 0 x) eqn:low; cbn [negb].
      * exists x. apply Qle_bool_iff in low. split; [exact low | reflexivity].
      * exists 0. split; [discriminate | reflexivity].
    + exists 0. split; [discriminate | reflexivity].
  - destruct (parseFloat (value d id)) as [x |]; [right | left; reflexivity].
    destruct (Qle_bool 0 x) eqn:low; cbn [negb].
    + exists x. apply Qle_bool_iff in low. split; [exact low | reflexivity].
    + exists 0. split; [discriminate | reflexivity].
Qed.

(** The statement at a cost field with a negative number typed in. *)
Lemma X12_monetary_blur_is_not_negative_witness :
  let d := Formula.run [Input "diCost" "-5"] blankPage in
  exists v, 0 <= v
    /\ value (Formula.dispatch (Blur "diCost") d) "diCost"
       = toLocaleString v.
Proof.
  intro d.
  assert (listed : In "diCost" monetaryInputs)
    by (right; right; left; reflexivity).
  exact (proj1 (X12_monetary_blur_is_not_negative DecimalBrowser d "diCost"
                  listed)).
Defined.

(** ** The count-up of [animateValue], in exact arithmetic *)

Lemma increment_duration (start end_ duration : Q) :
  0 < duration ->
  incrementOf start end_ duration * duration == 16 * (end_ - start).
Proof.
  intros positive. unfold incrementOf.
  cbn [num_sub num_div num_lit QNumber]. change (Qlit 16 0) with 16.
  field. intros zero. rewrite zero in positive. discriminate.
Qed.

Lemma sign_of_factor (x D : Q) :
  0 < D ->
  (0 <= x * D -> 0 <= x) /\ (0 < x * D -> 0 < x)
  /\ (x * D <= 0 -> x <= 0) /\ (x * D < 0 -> x < 0).
Proof.
  intros positive.
  assert (up : 0 < x -> 0 < x * D).
  { intros above.
    assert (0 * D < x * D) by (apply Qmult_lt_compat_r; assumption). lra. }
  assert (down : x < 0 -> x * D < 0).
  { intros below.
    assert (x * D < 0 * D) by (apply Qmult_lt_compat_r; assumption). lra. }
  assert (flat : x == 0 -> x * D == 0) by (intros zero; rewrite zero; ring).
  destruct (Q_dec x 0) as [[neg | pos] | zero];
    [specialize (down neg) | specialize (up pos) | specialize (flat zero)];
    repeat split; intros; lra.
Qed.

Lemma Qle_bool_false (x y : Q) : y < x -> Qle_bool x y = false.
Proof.
  intros above. destruct (Qle_bool x y) eqn:test; [| reflexivity].
  apply Qle_bool_iff in test. lra.
Qed.

Lemma Qle_bool_true (x y : Q) : x <= y -> Qle_bool x y = true.
Proof. apply Qle_bool_iff. Qed.

Lemma Qnat_S (n : nat) : Qnat (S n) == Qnat n + 1.
Proof.
  unfold Qnat. rewrite Nat2Z.inj_succ, <- Z.add_1_r, inject_Z_plus.
  reflexivity.
Qed.

Lemma Qnat_nonneg (n : nat) : 0 <= Qnat n.
Proof.
  unfold Qnat. change 0 with (inject_Z 0). rewrite <- Zle_Qle. lia.
Qed.

(** One run of the callback after [k] runs: it goes on adding the
    increment while [16 * (k + 1)] is below the duration, and ends on the
    target as soon as it is not. *)
Lemma countUpStep_after (start end_ duration increment c k : Q) :
  0 < duration ->
  ~ end_ == start ->
  increment * duration == 16 * (end_ - start) ->
  0 <= k ->
  c == start + k * increment ->
  (16 * (k + 1) < duration ->
   countUpStep c end_ increment = (c + increment, false))
  /\ (duration <= 16 * (k + 1) ->
      countUpStep c end_ increment = (end_, true)).
Proof.
  intros positive moves scaled done current.
  destruct (sign_of_factor increment duration positive)
    as [_ [inc_pos [_ inc_neg]]].
  assert (gap : ((k + 1) * increment - (end_ - start)) * duration
                == (end_ - start) * (16 * (k + 1) - duration)).
  { setoid_replace (((k + 1) * increment - (end_ - start)) * duration)
      with ((k + 1) * (increment * duration) - (end_ - start) * duration)
      by ring.
    rewrite scaled. ring. }
  destruct (sign_of_factor ((k + 1) * increment - (end_ - start)) duration
              positive) as [gap_nonneg [gap_pos [gap_nonpos gap_neg]]].
  rewrite gap in gap_nonneg, gap_pos, gap_nonpos, gap_neg.
  unfold countUpStep. cbn [num_add num_lt num_le num_lit QNumber].
  change (Qlit 0 0) with 0.
  destruct (Q_dec end_ start) as [[falls | rises] | same];
    [| | contradiction].
  - (* the target is below the start *)
    assert (negative : increment < 0) by (apply inc_neg; lra).
    rewrite (Qle_bool_true increment 0) by lra.
    rewrite (Qle_bool_false 0 increment) by lra.
    cbn [negb andb orb]. split; intros bound.
    + assert (0 < (end_ - start) * (16 * (k + 1) - duration)).
      { setoid_replace ((end_ - start) * (16 * (k + 1) - duration))
          with ((start - end_) * (duration - 16 * (k + 1))) by ring.
        apply Qmult_lt_0_compat; lra. }
      rewrite Qle_bool_false; [reflexivity |].
      specialize (gap_pos ltac:(assumption)). lra.
    + assert ((end_ - start) * (16 * (k + 1) - duration) <= 0).
      { setoid_replace ((end_ - start) * (16 * (k + 1) - duration))
          with (- ((start - end_) * (16 * (k + 1) - duration))) by ring.
        assert (0 <= (start - end_) * (16 * (k + 1) - duration))
          by (apply Qmult_le_0_compat; lra).
        lra. }
      rewrite Qle_bool_true; [reflexivity |].
      specialize (gap_nonpos ltac:(assumption)). lra.
  - (* the target is above the start *)
    assert (positive_step : 0 < increment) by (apply inc_pos; lra).
    rewrite (Qle_bool_false increment 0) by lra.
    rewrite (Qle_bool_true 0 increment) by lra.
    cbn [negb andb orb]. split; intros bound.
    + assert ((end_ - start) * (16 * (k + 1) - duration) < 0).
      { setoid_replace ((end_ - start) * (16 * (k + 1) - duration))
          with (- ((end_ - start) * (duration - 16 * (k + 1)))) by ring.
        assert (0 < (end_ - start) * (duration - 16 * (k + 1)))
          by (apply Qmult_lt_0_compat; lra).
        lra. }
      rewrite Qle_bool_false; [rewrite orb_false_r; reflexivity |].
      specialize (gap_neg ltac:(assumption)). lra.
    + assert (0 <= (end_ - start) * (16 * (k + 1) - duration))
        by (apply Qmult_le_0_compat; lra).
      rewrite Qle_bool_true; [reflexivity |].
      specialize (gap_nonneg ltac:(assumption)). lra.
Qed.

Section CountUp.
Context {B : Browser Q}.
Variables (id : string) (start end_ duration increment : Q).
Hypothesis positive : 0 < duration.
Hypothesis moves : ~ end_ == start.
Hypothesis scaled : increment * duration == 16 * (end_ - start).

Lemma sameButText_refl (d : Document Q) : sameButText id d d.
Proof. repeat split. Qed.

Lemma sameButText_step (d' d : Document Q) (text : string) :
  sameButText id d' (set_textContent id text d) -> sameButText id d' d.
Proof.
  intros [values [holders [shown [raised [started others]]]]].
  repeat split; try assumption.
  intros other differ. rewrite (others other differ).
  cbn [set_textContent textContent]. apply upd_other. exact differ.
Qed.

(** The interval after [k] runs, run [n] more times. *)
Lemma fireTimes_countUp (n : nat) :
  forall (k c : Q) (d : Document Q),
    0 <= k ->
    c == start + k * increment ->
    (16 * (k + Qnat n) < duration ->
     exists c' d',
       fireTimes n (CountUp id c end_ increment) d
       = (Some (CountUp id c' end_ increment), d')
       /\ c' == start + (k + Qnat n) * increment
       /\ (n = O -> c' = c /\ d' = d)
       /\ (n <> O -> textContent d' id = formatCurrency c')
       /\ sameButText id d' d)
    /\ (duration <= 16 * (k + Qnat n) ->
        16 * k < duration ->
        exists d',
          fireTimes n (CountUp id c end_ increment) d = (None, d')
          /\ textContent d' id = formatCurrency end_
          /\ sameButText id d' d).
Proof.
  induction n as [| n IH]; intros k c d done current.
  - change (Qnat 0) with 0. split.
    + intros _. exists c, d. split; [reflexivity |].
      split; [rewrite current; ring |].
      split; [split; reflexivity |].
      split; [congruence | apply sameButText_refl].
    + intros over under. lra.
  - pose proof (Qnat_S n) as next. pose proof (Qnat_nonneg n) as some.
    destruct (countUpStep_after start end_ duration increment c k
                positive moves scaled done current) as [goes ends].
    assert (current' : c + increment == start + (k + 1) * increment)
      by (rewrite current; ring).
    assert (done' : 0 <= k + 1) by lra.
    cbn [fireTimes fire].
    destruct (Qlt_le_dec (16 * (k + 1)) duration) as [under | over].
    + rewrite (goes under).
      destruct (IH (k + 1) (c + increment)
                  (set_textContent id (formatCurrency (c + increment)) d)
                  done' current') as [running finished].
      split.
      * intros bound. destruct running as [c' [d' [fired [value' [first
          [shown frame]]]]]]; [rewrite next in bound; lra |].
        exists c', d'. split; [exact fired |].
        split; [rewrite value', next; ring |].
        split; [discriminate |].
        split; [| eapply sameButText_step; exact frame].
        intros _. destruct n as [| n'].
        -- destruct (first eq_refl) as [-> ->].
           cbn [set_textContent textContent]. apply upd_same.
        -- apply shown. discriminate.
      * intros bound _.
        destruct finished as [d' [fired [shown frame]]];
          [rewrite next in bound; lra | exact under |].
        exists d'. split; [exact fired |]. split; [exact shown |].
        eapply sameButText_step; exact frame.
    + rewrite (ends over). split.
      * intros bound. rewrite next in bound. lra.
      * intros _ _. eexists. split; [reflexivity |].
        split; [cbn [set_textContent textContent]; apply upd_same |].
        eapply sameButText_step. apply sameButText_refl.
Qed.
End CountUp.

Lemma Qnat_positive (n : nat) : n <> O -> 1 <= Qnat n.
Proof.
  intros some. unfold Qnat. change 1 with (inject_Z 1).
  rewrite <- Zle_Qle. lia.
Qed.

(** X13.  [animateValue] starts one interval and changes nothing else.
    When the target differs from the start, the interval has ended after
    any number of runs that covers the duration (16 ms a run): it was
    cleared, the element shows the currency format of the target, and
    nothing but the text of that element has changed. *)
Theorem X13_count_up_ends_on_target (B : Browser Q) (id : string)
    (start end_ duration : Q) (d : Document Q) (n : nat) :
  0 < duration ->
  ~ end_ == start ->
  duration <= 16 * Qnat n ->
  let t := CountUp id start end_ (incrementOf start end_ duration) in
  let started := animateValue id start end_ duration d in
  timers started = t :: timers d
  /\ textContent started = textContent d
  /\ exists d',
       fireTimes n t started = (None, d')
       /\ textContent d' id = formatCurrency end_
       /\ sameButText id d' started.
Proof.
  intros positive moves covered t started.
  split; [reflexivity |]. split; [reflexivity |].
  destruct (fireTimes_countUp id start end_ duration
              (incrementOf start end_ duration) positive moves
              (increment_duration start end_ duration positive)
              n 0 start started) as [_ finished]; [lra | ring |].
  apply finished; lra.
Qed.

(** The statement at the count-up of a saving of 154.35 over 1000 ms. *)
Lemma X13_count_up_ends_on_target_witness :
  exists d',
    fireTimes 63
      (CountUp "monthlySavings" 0 154.35 (incrementOf 0 154.35 1000))
      (animateValue "monthlySavings" 0 154.35 1000 blankPage) = (None, d')
    /\ textContent d' "monthlySavings" = formatCurrency 154.35.
Proof.
  assert (positive : 0 < 1000) by reflexivity.
  assert (moves : ~ 154.35 == 0) by discriminate.
  assert (covered : 1000 <= 16 * Qnat 63) by discriminate.
  destruct (X13_count_up_ends_on_target DecimalBrowser "monthlySavings"
              0 154.35 1000 blankPage 63 positive moves covered)
    as [_ [_ [d' [fired [shown _]]]]].
  exists d'. split; [exact fired | exact shown].
Defined.

(** X14.  While the runs do not cover the duration, the interval goes
    on: after [n] runs the element shows the currency format of
    [start + n * increment], a value strictly between the start and the
    target, so the count-up never passes its target. *)
Theorem X14_count_up_stays_between (B : Browser Q) (id : string)
    (start end_ duration : Q) (d : Document Q) (n : nat) :
  0 < duration ->
  ~ end_ == start ->
  n <> O ->
  16 * Qnat n < duration ->
  let increment := incrementOf start end_ duration in
  exists c d',
    fireTimes n (CountUp id start end_ increment) d
    = (Some (CountUp id c end_ increment), d')
    /\ c == start + Qnat n * increment
    /\ textContent d' id = formatCurrency c
    /\ ((start < c /\ c < end_) \/ (end_ < c /\ c < start))
    /\ sameButText id d' d.
Proof.
  intros positive moves some under increment.
  pose proof (increment_duration start end_ duration positive) as scaled.
  fold increment in scaled.
  destruct (fireTimes_countUp id start end_ duration increment positive
              moves scaled n 0 start d) as [running _]; [lra | ring |].
  destruct running as [c [d' [fired [current [_ [shown frame]]]]]];
    [lra |].
  exists c, d'. split; [exact fired |].
  split; [rewrite current; ring |].
  split; [exact (shown some) |].
  split; [| exact frame].
  pose proof (Qnat_positive n some) as ticks.
  assert (risen : (c - start) * duration == (end_ - start) * (16 * Qnat n)).
  { rewrite current.
    setoid_replace ((start + (0 + Qnat n) * increment - start) * duration)
      with (Qnat n * (increment * duration)) by ring.
    rewrite scaled. ring. }
  assert (left_ : (end_ - c) * duration
                  == (end_ - start) * (duration - 16 * Qnat n)).
  { setoid_replace ((end_ - c) * duration)
      with ((end_ - start) * duration - (c - start) * duration) by ring.
    rewrite risen. ring. }
  destruct (sign_of_factor (c - start) duration positive)
    as [_ [above [_ below]]].
  destruct (sign_of_factor (end_ - c) duration positive)
    as [_ [before [_ beyond]]].
  rewrite risen in above, below. rewrite left_ in before, beyond.
  destruct (Q_dec end_ start) as [[falls | rises] | same];
    [right | left | contradiction].
  - assert (0 < (start - end_) * (16 * Qnat n))
      by (apply Qmult_lt_0_compat; lra).
    assert (0 < (start - end_) * (duration - 16 * Qnat n))
      by (apply Qmult_lt_0_compat; lra).
    assert ((end_ - start) * (16 * Qnat n) < 0).
    { setoid_replace ((end_ - start) * (16 * Qnat n))
        with (- ((start - end_) * (16 * Qnat n))) by ring. lra. }
    assert ((end_ - start) * (duration - 16 * Qnat n) < 0).
    { setoid_replace ((end_ - start) * (duration - 16 * Qnat n))
        with (- ((start - end_) * (duration - 16 * Qnat n))) by ring. lra. }
    specialize (below ltac:(assumption)).
    specialize (beyond ltac:(assumption)). lra.
  - assert (0 < (end_ - start) * (16 * Qnat n))
      by (apply Qmult_lt_0_compat; lra).
    assert (0 < (end_ - start) * (duration - 16 * Qnat n))
      by (apply Qmult_lt_0_compat; lra).
    specialize (above ltac:(assumption)).
    specialize (before ltac:(assumption)). lra.
Qed.

(** The statement at the same count-up after 10 runs. *)
Lemma X14_count_up_stays_between_witness :
  exists c d',
    fireTimes 10
      (CountUp "monthlySavings" 0 154.35 (incrementOf 0 154.35 1000))
      blankPage
    = (Some (CountUp "monthlySavings" c 154.35 (incrementOf 0 154.35 1000)),
       d')
    /\ 0 < c /\ c < 154.35.
Proof.
  assert (positive : 0 < 1000) by reflexivity.
  assert (moves : ~ 154.35 == 0) by discriminate.
  assert (some : 10%nat <> O) by discriminate.
  assert (under : 16 * Qnat 10 < 1000) by reflexivity.
  destruct (X14_count_up_stays_between DecimalBrowser "monthlySavings"
              0 154.35 1000 blankPage 10 positive moves some under)
    as [c [d' [fired [_ [_ [[[above below] | [below above]] _]]]]]].
  - exists c, d'. split; [exact fired | split; assumption].
  - exfalso. apply (Qlt_irrefl 0).
    apply Qlt_trans with c; [| exact above].
    apply Qlt_trans with 154.35; [reflexivity | exact below].
Defined.

(** X15.  When the target equals the start - savings of exactly zero -
    the increment is zero, neither test of the callback is met, and the
    interval is never cleared: it is still running after any number of
    runs, with its value at the start. *)
Theorem X15_count_up_to_the_start_never_ends (B : Browser Q) (id : string)
    (start end_ duration : Q) (d : Document Q) (n : nat) :
  0 < duration ->
  end_ == start ->
  let increment := incrementOf start end_ duration in
  exists c d',
    fireTimes n (CountUp id start end_ increment) d
    = (Some (CountUp id c end_ increment), d')
    /\ c == start.
Proof.
  intros positive same increment.
  pose proof (increment_duration start end_ duration positive) as scaled.
  fold increment in scaled.
  assert (still : increment == 0).
  { destruct (sign_of_factor increment duration positive)
      as [low [_ [high _]]].
    assert (flat : increment * duration == 0) by (rewrite scaled; lra).
    rewrite flat in low, high.
    specialize (low ltac:(lra)). specialize (high ltac:(lra)). lra. }
  assert (step : forall c, countUpStep c end_ increment = (c + increment, false)).
  { intros c. unfold countUpStep. cbn [num_add num_lt num_le num_lit QNumber].
    change (Qlit 0 0) with 0.
    rewrite (Qle_bool_true increment 0), (Qle_bool_true 0 increment) by lra.
    reflexivity. }
  clearbody increment.
  assert (runs : forall k c0 d0, c0 == start ->
            exists c d',
              fireTimes k (CountUp id c0 end_ increment) d0
              = (Some (CountUp id c end_ increment), d') /\ c == start).
  { induction k as [| k IH]; intros c0 d0 at_start.
    - exists c0, d0. split; [reflexivity | exact at_start].
    - cbn [fireTimes fire]. rewrite step. apply IH. lra. }
  apply runs. reflexivity.
Qed.

(** The statement at a count-up from 0 to 0. *)
Lemma X15_count_up_to_the_start_never_ends_witness :
  exists c d',
    fireTimes 1000 (CountUp "monthlySavings" 0 0 (incrementOf 0 0 1000))
      blankPage
    = (Some (CountUp "monthlySavings" c 0 (incrementOf 0 0 1000)), d').
Proof.
  assert (positive : 0 < 1000) by reflexivity.
  assert (same : 0 == 0) by reflexivity.
  destruct (X15_count_up_to_the_start_never_ends DecimalBrowser
              "monthlySavings" 0 0 1000 blankPage 1000 positive same)
    as [c [d' [fired _]]].
  exists c, d'. exact fired.
Defined.

Lemma annual_of_monthly (m : PricingModel) (i : Inputs Q) (data : Data.t Q) :
  compute m i = Update data ->
  Data.annualSavings data == Data.monthlySavings data * 12.
Proof.
  destruct m; cbn [compute]; unfold Formula.calculate, FlatRate.calculate;
    destruct (monthlyVolume i <=? num_lit 0 0)%js; intros produced;
    inversion produced; reflexivity.
Qed.

(** X16.  After a calculation with savings other than zero, the two
    count-ups started by [updateResults] are still running after 62 and
    93 runs of their intervals, and have ended after 63 and 94 runs (1008
    ms and 1504 ms) on the currency format of the monthly and of the
    annual savings. *)
Theorem X16_savings_count_up_in_63_and_94_runs (B : Browser Q)
    (m : PricingModel) (d : Document Q) (data : Data.t Q) :
  compute m (readInputsOf m d) = Update data ->
  ~ Data.monthlySavings data == 0 ->
  let page := calculateROIOf m d in
  let monthly :=
    CountUp "monthlySavings" 0 (Data.monthlySavings data)
      (incrementOf 0 (Data.monthlySavings data) 1000) in
  let annual :=
    CountUp "annualSavings" 0 (Data.annualSavings data)
      (incrementOf 0 (Data.annualSavings data) 1500) in
  In monthly (timers page) /\ In annual (timers page)
  /\ (exists t d', fireTimes 62 monthly page = (Some t, d'))
  /\ (exists d', fireTimes 63 monthly page = (None, d')
        /\ textContent d' "monthlySavings"
           = formatCurrency (Data.monthlySavings data))
  /\ (exists t d', fireTimes 93 annual page = (Some t, d'))
  /\ (exists d', fireTimes 94 annual page = (None, d')
        /\ textContent d' "annualSavings"
           = formatCurrency (Data.annualSavings data)).
Proof.
  intros produced saving page monthly annual.
  assert (shown : page = present (Update data) d).
  { subst page. rewrite calculateROIOf_present, produced. reflexivity. }
  assert (yearly : ~ Data.annualSavings data == 0).
  { rewrite (annual_of_monthly m _ data produced). intros zero.
    apply saving. lra. }
  split; [rewrite shown; right; right; left; reflexivity |].
  split; [rewrite shown; right; left; reflexivity |].
  assert (positive : 0 < 1000) by reflexivity.
  assert (positive' : 0 < 1500) by reflexivity.
  pose proof (fireTimes_countUp "monthlySavings" 0
                (Data.monthlySavings data) 1000
                (incrementOf 0 (Data.monthlySavings data) 1000)
                positive saving
                (increment_duration 0 (Data.monthlySavings data) 1000
                   positive)) as month.
  pose proof (fireTimes_countUp "annualSavings" 0
                (Data.annualSavings data) 1500
                (incrementOf 0 (Data.annualSavings data) 1500)
                positive' yearly
                (increment_duration 0 (Data.annualSavings data) 1500
                   positive')) as year.
  assert (zero : 0 <= 0) by discriminate.
  split; [| split; [| split]].
  - destruct (month 62%nat 0 0 page zero) as [running _]; [ring |].
    destruct running as [c [d' [fired _]]]; [reflexivity |].
    eexists. exists d'. exact fired.
  - destruct (month 63%nat 0 0 page zero) as [_ finished]; [ring |].
    destruct finished as [d' [fired [text _]]];
      [discriminate | reflexivity |].
    exists d'. split; [exact fired | exact text].
  - destruct (year 93%nat 0 0 page zero) as [running _]; [ring |].
    destruct running as [c [d' [fired _]]]; [reflexivity |].
    eexists. exists d'. exact fired.
  - destruct (year 94%nat 0 0 page zero) as [_ finished]; [ring |].
    destruct finished as [d' [fired [text _]]];
      [discriminate | reflexivity |].
    exists d'. split; [exact fired | exact text].
Qed.

(** The statement at the worked example. *)
Lemma X16_savings_count_up_in_63_and_94_runs_witness :
  let d := Formula.run (exampleEvents "50") blankPage in
  exists data d',
    compute FormulaModel (readInputsOf FormulaModel d) = Update data
    /\ fireTimes 63
         (CountUp "monthlySavings" 0 (Data.monthlySavings data)
            (incrementOf 0 (Data.monthlySavings data) 1000))
         (calculateROIOf FormulaModel d) = (None, d').
Proof.
  intro d.
  destruct (compute FormulaModel (readInputsOf FormulaModel d))
    as [message | data] eqn:produced; [vm_compute in produced; discriminate |].
  assert (saving : ~ Data.monthlySavings data == 0).
  { vm_compute in produced. inversion produced. discriminate. }
  destruct (X16_savings_count_up_in_63_and_94_runs DecimalBrowser
              FormulaModel d data produced saving)
    as [_ [_ [_ [[d' [fired _]] _]]]].
  exists data, d'. split; [reflexivity | exact fired].
Defined.

(** ** The prefill from the URL *)

Section Prefill.
Context {num : Type} `{Number num} `{Browser num}.
Variable urlParams : string -> option string.

Lemma fill_keeps_outputs (g : string -> string -> string)
    (l : list (string * string)) :
  forall d : Document num,
    textContent (fold_left (fill urlParams g) l d) = textContent d
    /\ alerts (fold_left (fill urlParams g) l d) = alerts d
    /\ timers (fold_left (fill urlParams g) l d) = timers d
    /\ display (fold_left (fill urlParams g) l d) = display d
    /\ placeholder (fold_left (fill urlParams g) l d) = placeholder d.
Proof.
  induction l as [| entry l IH]; intros d; cbn [fold_left];
    [repeat split |].
  destruct (IH (fill urlParams g d entry)) as [texts [raised [started [shown holders]]]].
  rewrite texts, raised, started, shown, holders.
  unfold fill. destruct (urlParams (fst entry)); repeat split.
Qed.

Lemma names_keep_the_rest (names : Document num -> Document num)
    (d : Document num) (id : string) :
  names = Formula.prefillNames urlParams
  \/ names = FlatRate.prefillNames urlParams ->
  isIn id nameFields = false ->
  textContent (names d) id = textContent d id
  /\ alerts (names d) = alerts d
  /\ timers (names d) = timers d
  /\ display (names d) = display d
  /\ placeholder (names d) = placeholder d
  /\ value (names d) = value d.
Proof.
  intros which other. cbn [isIn nameFields existsb] in other.
  repeat (apply orb_false_iff in other; destruct other as [? other]).
  destruct which as [-> | ->];
    unfold Formula.prefillNames, FlatRate.prefillNames;
    destruct (urlParams "competitor") as [[| ? ?] |];
    destruct (urlParams "practice") as [[| ? ?] |];
    cbn [set_textContent textContent alerts timers display placeholder
           value];
    unfold upd;
    repeat match goal with
           | miss : (id =? ?x)%string = false |- context [(id =? ?x)%string] =>
               rewrite miss
           end;
    repeat split.
Qed.

(** X17.  [prefillFromURLParams] only fills in: it raises no alert,
    starts no timer - so it does not calculate -, changes no display and
    no placeholder, and writes no text outside the five name elements;
    the result fields are as they were. *)
Theorem X17_prefill_only_fills_in (m : PricingModel) (d : Document num)
    (id : string) :
  isIn id nameFields = false ->
  textContent (prefillOf m urlParams d) id = textContent d id
  /\ alerts (prefillOf m urlParams d) = alerts d
  /\ timers (prefillOf m urlParams d) = timers d
  /\ display (prefillOf m urlParams d) = display d
  /\ placeholder (prefillOf m urlParams d) = placeholder d.
Proof.
  intros other.
  destruct m; cbn [prefillOf];
    unfold Formula.prefillFromURLParams, FlatRate.prefillFromURLParams.
  - destruct (names_keep_the_rest (Formula.prefillNames urlParams)
                (fold_left (fill urlParams Formula.prefillValue) Formula.paramMap d)
                id (or_introl eq_refl) other)
      as [text [raised [started [shown [holders _]]]]].
    destruct (fill_keeps_outputs Formula.prefillValue Formula.paramMap d)
      as [texts [raised' [started' [shown' holders']]]].
    change (fold_left _ Formula.paramMap d)
      with (fold_left (fill urlParams Formula.prefillValue) Formula.paramMap d).
    rewrite text, raised, started, shown, holders,
      texts, raised', started', shown', holders'.
    repeat split.
  - destruct (names_keep_the_rest (FlatRate.prefillNames urlParams)
                (fold_left (fill urlParams (fun _ v => v)) FlatRate.paramMap d)
                id (or_intror eq_refl) other)
      as [text [raised [started [shown [holders _]]]]].
    destruct (fill_keeps_outputs (fun _ v => v) FlatRate.paramMap d)
      as [texts [raised' [started' [shown' holders']]]].
    change (fold_left _ FlatRate.paramMap d)
      with (fold_left (fill urlParams (fun _ v => v)) FlatRate.paramMap d).
    rewrite text, raised, started, shown, holders,
      texts, raised', started', shown', holders'.
    repeat split.
Qed.

(** X18.  Without parameters in the URL the prefill leaves the document
    as it is. *)
Theorem X18_prefill_without_parameters (m : PricingModel)
    (d : Document num) :
  (forall name, urlParams name = None) ->
  prefillOf m urlParams d = d.
Proof.
  intros none.
  destruct m; cbn [prefillOf];
    unfold Formula.prefillFromURLParams, FlatRate.prefillFromURLParams,
      Formula.prefillNames, FlatRate.prefillNames;
    cbn [fold_left Formula.paramMap FlatRate.paramMap fst snd];
    rewrite !none; reflexivity.
Qed.

(** X19.  A percentage given in the URL reaches the calculation as it is
    parsed, without the clamp of the blur listener: after the prefill,
    [calculateROI] reads the credit card percentage from the text of
    [cc_percent] and the competitor rate from the text of [comp_rate]. *)
Theorem X19_prefilled_percentages_are_not_clamped (m : PricingModel)
    (d : Document num) (share rate : string) :
  urlParams "cc_percent" = Some share ->
  urlParams "comp_rate" = Some rate ->
  share <> "" ->
  rate <> "" ->
  let text (v : string) :=
    match m with FormulaModel => stripCommas v | FlatRateModel => v end in
  let i := readInputsOf m (prefillOf m urlParams d) in
  creditCardPercentage i = orZero (parseFloat (text share))
  /\ competitorRate i = orZero (parseFloat (text rate)).
Proof.
  intros given given' some some' text i. subst text i.
  assert (unnamed : isIn "" nameFields = false) by reflexivity.
  destruct m; cbn [prefillOf readInputsOf];
    unfold Formula.readInputs, FlatRate.readInputs,
      Formula.prefillFromURLParams, FlatRate.prefillFromURLParams;
    cbn [creditCardPercentage competitorRate].
  - destruct (names_keep_the_rest (Formula.prefillNames urlParams)
                (fold_left
                   (fun d entry =>
                      match urlParams (fst entry) with
                      | Some value =>
                          set_value (snd entry)
                            (Formula.prefillValue (snd entry) value) d
                      | None => d
                      end) Formula.paramMap d)
                "" (or_introl eq_refl) unnamed)
      as [_ [_ [_ [_ [_ values]]]]].
    rewrite values. clear values.
    cbn [fold_left Formula.paramMap fst snd]. rewrite given, given'.
    destruct (urlParams "comp_cost"); destruct (urlParams "di_cost");
      cbn [set_value value]; unfold upd, Formula.prefillValue;
      cbn [String.eqb Ascii.eqb Bool.eqb isIn monetaryInputs existsb orb];
      rewrite (orElse_nonempty _ _ some), (orElse_nonempty _ _ some');
      split; reflexivity.
  - destruct (names_keep_the_rest (FlatRate.prefillNames urlParams)
                (fold_left
                   (fun d entry =>
                      match urlParams (fst entry) with
                      | Some value => set_value (snd entry) value d
                      | None => d
                      end) FlatRate.paramMap d)
                "" (or_intror eq_refl) unnamed)
      as [_ [_ [_ [_ [_ values]]]]].
    rewrite values. clear values.
    cbn [fold_left FlatRate.paramMap fst snd]. rewrite given, given'.
    destruct (urlParams "comp_cost"); destruct (urlParams "di_cost");
      cbn [set_value value]; unfold upd;
      cbn [String.eqb Ascii.eqb Bool.eqb];
      rewrite (orElse_nonempty _ _ some), (orElse_nonempty _ _ some');
      split; reflexivity.
Qed.
End Prefill.

(** The statement at a query with a practice name, for a result field. *)
Lemma X17_prefill_only_fills_in_witness :
  let urlParams := fun name : string =>
    if String.eqb name "practice" then Some "Smiles" else None in
  textContent (prefillOf FormulaModel urlParams blankPage) "monthlySavings"
  = textContent blankPage "monthlySavings".
Proof.
  intro urlParams.
  assert (other : isIn "monthlySavings" nameFields = false) by reflexivity.
  exact (proj1 (X17_prefill_only_fills_in urlParams FormulaModel blankPage
                  "monthlySavings" other)).
Defined.

(** The statement at the empty query. *)
Lemma X18_prefill_without_parameters_witness :
  prefillOf FlatRateModel (fun _ => None) blankPage = blankPage.
Proof.
  exact (X18_prefill_without_parameters (fun _ => None) FlatRateModel
           blankPage (fun _ => eq_refl)).
Defined.

(** The statement at a query that asks for 150 percent on credit cards. *)
Lemma X19_prefilled_percentages_are_not_clamped_witness :
  let urlParams := fun name : string =>
    if String.eqb name "cc_percent" then Some "150"
    else if String.eqb name "comp_rate" then Some "3" else None in
  creditCardPercentage
    (readInputsOf FlatRateModel
       (prefillOf FlatRateModel urlParams blankPage))
  = orZero (parseFloat "150").
Proof.
  intro urlParams.
  assert (given : urlParams "cc_percent" = Some "150") by reflexivity.
  assert (given' : urlParams "comp_rate" = Some "3") by reflexivity.
  assert (some : "150" <> "") by discriminate.
  assert (some' : "3" <> "") by discriminate.
  exact (proj1 (X19_prefilled_percentages_are_not_clamped urlParams
                  FlatRateModel blankPage "150" "3" given given' some some')).
Defined.

(** ** The names shown on the page *)

Lemma lowerChar_facts (c : ascii) :
  lowerChar (lowerChar c) = lowerChar c
  /\ lowerChar (upperChar (lowerChar c)) = lowerChar c
  /\ upperChar (lowerChar (upperChar (lowerChar c))) = upperChar (lowerChar c)
  /\ Ascii.eqb (lowerChar c) " " = Ascii.eqb c " "
  /\ Ascii.eqb (upperChar (lowerChar c)) " " = Ascii.eqb c " "
  /\ upperChar (lowerChar " ") = " "%char
  /\ (isAsciiChar c = true ->
      isAsciiChar (lowerChar c) = true
      /\ isAsciiChar (upperChar (lowerChar c)) = true).
Proof.
  destruct c as [[] [] [] [] [] [] [] []];
    repeat split; try reflexivity; discriminate.
Qed.

Lemma split_cons (sep : ascii) (s : string) :
  exists w ws, split sep s = w :: ws.
Proof.
  destruct s as [| c r]; cbn [split]; [eauto |].
  destruct (Ascii.eqb c sep); [eauto |].
  destruct (split sep r); eauto.
Qed.

Lemma join_cons (sep : string) (c : ascii) (w : string) (ws : list string) :
  join sep (String c w :: ws) = String c (join sep (w :: ws)).
Proof. destruct ws; reflexivity. Qed.

Lemma join_next (sep w w' : string) (ws : list string) :
  join sep (w :: w' :: ws) = (w ++ sep ++ join sep (w' :: ws))%string.
Proof. reflexivity. Qed.

(** The pipeline of [split], [map] and [join] against the one-pass scan,
    for a text that is already in lower case where the scan lowers. *)
Lemma titleCase_scan (s : string) :
  let capital := fun word => (toUpperCase (charAt0 word) ++ slice1 word)%string in
  join " " (map capital (split " " (toLowerCase s))) = titleScan true s
  /\ match split " " (toLowerCase s) with
     | w :: ws => join " " (w :: map capital ws) = titleScan false s
     | [] => False
     end.
Proof.
  intro capital.
  induction s as [| c r [opened inside]]; [split; reflexivity |].
  destruct (lowerChar_facts c) as [_ [_ [_ [space [_ [blank _]]]]]].
  cbn [toLowerCase split titleScan]. rewrite space.
  destruct (Ascii.eqb c " ") eqn:is_space.
  - apply Ascii.eqb_eq in is_space. subst c.
    destruct (split_cons " " (toLowerCase r)) as [w [ws pieces]].
    rewrite pieces in *. cbn [map] in *.
    rewrite !join_next, opened.
    change (capital "") with "". change (lowerChar " ") with " "%char.
    change (upperChar " ") with " "%char.
    split; reflexivity.
  - destruct (split_cons " " (toLowerCase r)) as [w [ws pieces]].
    rewrite pieces in *. cbn [map]. split.
    + change (capital (String (lowerChar c) w))
        with (String (upperChar (lowerChar c)) w).
      rewrite join_cons, inside. reflexivity.
    + rewrite join_cons, inside. reflexivity.
Qed.

Lemma titleScan_facts (s : string) :
  forall opening,
    String.length (titleScan opening s) = String.length s
    /\ titleScan opening (titleScan opening s) = titleScan opening s
    /\ (isAscii s = true -> isAscii (titleScan opening s) = true).
Proof.
  induction s as [| c r IH]; intros opening; [repeat split |].
  destruct (lowerChar_facts c)
    as [low [low' [up [space [space' [_ ascii]]]]]].
  destruct (IH (Ascii.eqb c " ")) as [size [again plain]].
  cbn [titleScan String.length isAscii]. rewrite size.
  split; [reflexivity |]. split.
  - destruct opening; rewrite ?space, ?space', ?low, ?up, again;
      reflexivity.
  - intros all. apply andb_true_iff in all. destruct all as [head rest].
    destruct (ascii head) as [lower upper].
    apply andb_true_iff. split; [destruct opening; assumption |].
    exact (plain rest).
Qed.

(** X20.  The title case of an ASCII competitor name, computed with
    [split], [map] and [join], is the name with every letter lowered
    except the letters that open the text or follow a space, which are
    raised.  It has the length of the name, stays ASCII, and is its own
    title case. *)
Theorem X20_title_case (competitorName : string) :
  isAscii competitorName = true ->
  titleCase competitorName = titleScan true competitorName
  /\ String.length (titleCase competitorName)
     = String.length competitorName
  /\ isAscii (titleCase competitorName) = true
  /\ titleCase (titleCase competitorName) = titleCase competitorName.
Proof.
  intros plain.
  assert (scan : forall s, titleCase s = titleScan true s)
    by (intros s; apply (titleCase_scan s)).
  destruct (titleScan_facts competitorName true) as [size [again ascii]].
  rewrite !scan. repeat split; auto.
Qed.

(** The statement at a name in capitals. *)
Lemma X20_title_case_witness :
  isAscii "ACME  dental pay" = true
  /\ titleCase "ACME  dental pay" = "Acme  Dental Pay".
Proof.
  assert (plain : isAscii "ACME  dental pay" = true) by reflexivity.
  split; [exact plain |].
  destruct (X20_title_case "ACME  dental pay" plain) as [scan _].
  rewrite scan. reflexivity.
Defined.

Lemma append_last (a b : string) (x y : ascii) :
  (a ++ String x "")%string = (b ++ String y "")%string -> a = b /\ x = y.
Proof.
  revert b. induction a as [| c a IH]; intros [| e b]; cbn [append];
    intros same.
  - injection same as ->. split; reflexivity.
  - injection same as _ rest. destruct b; discriminate.
  - injection same as _ rest. destruct a; discriminate.
  - injection same as -> rest.
    destruct (IH b rest) as [-> ->]. split; reflexivity.
Qed.

Lemma append_two (a : string) (x y : ascii) :
  (a ++ String x (String y ""))%string
  = ((a ++ String x "") ++ String y "")%string.
Proof.
  induction a as [| c a IH]; cbn [append]; [reflexivity |].
  rewrite IH. reflexivity.
Qed.

Lemma endsWith_s_spec (name : string) :
  endsWith_s name = true <-> exists x, name = (x ++ "s")%string.
Proof.
  induction name as [| c r IH].
  - split; [discriminate |]. intros [[| ? ?] impossible]; discriminate.
  - destruct r as [| e r'].
    + cbn [endsWith_s]. split.
      * intros last. apply Ascii.eqb_eq in last. subst c.
        exists "". reflexivity.
      * intros [[| h t] shape]; cbn [append] in shape.
        -- inversion shape. reflexivity.
        -- inversion shape as [[head rest]]. destruct t; discriminate.
    + change (endsWith_s (String c (String e r')))
        with (endsWith_s (String e r')).
      rewrite IH. split.
      * intros [x ->]. exists (String c x). reflexivity.
      * intros [[| h t] shape]; cbn [append] in shape;
          [discriminate |].
        injection shape as _ rest. exists t. exact rest.
Qed.

(** X21.  The possessive of a name that ends in "s" is the name with an
    apostrophe, and the possessive of any other name is the name with
    "'s": the test [endsWith('s')] holds exactly for the names of the
    form x + "s".  The possessive never ends in "s's". *)
Theorem X21_possessive_shape (name x : string) :
  (endsWith_s name = true <-> exists y, name = (y ++ "s")%string)
  /\ (makePossessive name = (name ++ "'")%string
      \/ makePossessive name = (name ++ "'s")%string)
  /\ makePossessive name <> (x ++ "s's")%string
  /\ ((endsWith_s name = true
       /\ makePossessive name = (name ++ "'")%string)
      \/ (endsWith_s name = false
          /\ makePossessive name = (name ++ "'s")%string))
  /\ makePossessive (x ++ "s") = ((x ++ "s") ++ "'")%string
  /\ ((forall y, name <> (y ++ "s")%string) ->
      makePossessive name = (name ++ "'s")%string).
Proof.
  split; [apply endsWith_s_spec |].
  assert (never : makePossessive name <> (x ++ "s's")%string).
  { unfold makePossessive.
    destruct (endsWith_s name) eqn:ends; intros same.
    - assert (shape : (x ++ "s's")%string = ((x ++ "s'") ++ "s")%string).
      { clear. induction x as [| c x IH]; cbn [append]; [reflexivity |].
        rewrite IH. reflexivity. }
      rewrite shape in same. apply append_last in same.
      destruct same as [_ impossible]. discriminate.
    - assert (shape :
        (x ++ "s's")%string = (((x ++ "s") ++ "'") ++ "s")%string).
      { clear. induction x as [| c x IH]; cbn [append]; [reflexivity |].
        rewrite IH. reflexivity. }
      rewrite shape, append_two in same.
      apply append_last in same. destruct same as [same _].
      apply append_last in same. destruct same as [-> _].
      assert (endsWith_s (x ++ "s") = true)
        by (apply endsWith_s_spec; eauto).
      congruence. }
  assert (tied :
    (endsWith_s name = true /\ makePossessive name = (name ++ "'")%string)
    \/ (endsWith_s name = false
        /\ makePossessive name = (name ++ "'s")%string)).
  { unfold makePossessive. destruct (endsWith_s name); [left | right];
      split; reflexivity. }
  split; [destruct tied as [[_ shape] | [_ shape]]; tauto |].
  split; [exact never |].
  split; [exact tied |].
  split.
  - unfold makePossessive.
    assert (ends : endsWith_s (x ++ "s") = true)
      by (apply endsWith_s_spec; eauto).
    rewrite ends. reflexivity.
  - intros other. destruct tied as [[ends _] | [_ shape]]; [| exact shape].
    apply endsWith_s_spec in ends. destruct ends as [y shape].
    elim (other y shape).
Qed.

(** X22.  Two practice names with the same possessive are the same name:
    the possessive determines the name. *)
Theorem X22_possessive_determines_name (a b : string) :
  makePossessive a = makePossessive b -> a = b.
Proof.
  unfold makePossessive.
  destruct (endsWith_s a), (endsWith_s b); intros same;
    rewrite ?append_two in same; apply append_last in same;
    destruct same as [same last]; try discriminate last.
  - exact same.
  - apply append_last in same. destruct same as [-> _]. reflexivity.
Qed.

(** The statement at a name. *)
Lemma X22_possessive_determines_name_witness :
  makePossessive "Chris" = "Chris'" /\ "Chris" = "Chris".
Proof.
  split; [reflexivity |].
  exact (X22_possessive_determines_name "Chris" "Chris" eq_refl).
Defined.

(** The statement at a name that ends in "s" and at one that does not. *)
Lemma X21_possessive_shape_witness :
  endsWith_s "Smiles" = true /\ makePossessive "Smiles" = "Smiles'"
  /\ (forall y, "Acme" <> (y ++ "s")%string)
  /\ makePossessive "Acme" = "Acme's".
Proof.
  destruct (X21_possessive_shape "Smiles" "Smile")
    as [[_ ends] [_ [_ [_ [with_s _]]]]].
  destruct (X21_possessive_shape "Acme" "")
    as [[shape _] [_ [_ [_ [_ without_s]]]]].
  assert (other : forall y, "Acme" <> (y ++ "s")%string).
  { intros y same.
    assert (ended : endsWith_s "Acme" = true)
      by (apply (proj2 (endsWith_s_spec "Acme")); exists y; exact same).
    discriminate ended. }
  split; [apply ends; exists "Smile"; reflexivity |].
  split; [exact with_s |].
  split; [exact other | exact (without_s other)].
Defined.

(** ** How the costs move with the inputs, in exact arithmetic *)

(** X23.  In the formula of [script.js], with a positive volume and the
    other inputs equal, a larger credit card percentage gives a smaller
    own processing cost and larger monthly savings. *)
Theorem X23_more_credit_cards_cost_less (i1 i2 : Inputs Q) :
  0 < monthlyVolume i1 ->
  monthlyVolume i1 == monthlyVolume i2 ->
  competitorRate i1 == competitorRate i2 ->
  competitorSaas i1 == competitorSaas i2 ->
  diCost i1 == diCost i2 ->
  creditCardPercentage i1 <= creditCardPercentage i2 ->
  Formula.diProcessingCost i2 <= Formula.diProcessingCost i1
  /\ Formula.monthlySavings i1 <= Formula.monthlySavings i2.
Proof.
  intros volume same rate saas cost share.
  formula_locals. Qliterals.
  rewrite <- same, <- rate, <- saas, <- cost.
  assert (more : 0 <= monthlyVolume i1
                      * ((creditCardPercentage i2 - creditCardPercentage i1)
                         * (1 # 100)))
    by (apply Qmult_le_0_compat; lra).
  assert (spread :
    monthlyVolume i1
    * ((creditCardPercentage i2 - creditCardPercentage i1) * (1 # 100))
    == monthlyVolume i1 * (creditCardPercentage i2 * (1 # 100))
       - monthlyVolume i1 * (creditCardPercentage i1 * (1 # 100))) by ring.
  rewrite spread in more. split; lra.
Qed.

(** The statement at the worked example with 50 and 80 percent. *)
Lemma X23_more_credit_cards_cost_less_witness :
  Formula.monthlySavings (example_inputs 50 : Inputs Q)
  <= Formula.monthlySavings (example_inputs 80 : Inputs Q).
Proof.
  apply (X23_more_credit_cards_cost_less (example_inputs 50)
           (example_inputs 80)); reflexivity || discriminate.
Defined.

(** X24.  The two variants against each other: for a positive volume the
    formula of [script.js] charges at most the flat rate of [part_000]
    exactly when the credit card percentage is at least 152300/2913
    (about 52.28), and charges the same at that percentage. *)
Theorem X24_formula_against_flat_rate (i : Inputs Q) :
  0 < monthlyVolume i ->
  (Formula.diProcessingCost i <= FlatRate.diProcessingCost i
   <-> 152300 # 2913 <= creditCardPercentage i)
  /\ (Formula.diProcessingCost i == FlatRate.diProcessingCost i
      <-> creditCardPercentage i == 152300 # 2913).
Proof.
  intros volume.
  assert (gap : (FlatRate.diProcessingCost i - Formula.diProcessingCost i)
                * (10000000 # 2913)
                == (creditCardPercentage i - (152300 # 2913))
                   * monthlyVolume i).
  { formula_locals. flat_locals. Qliterals. ring. }
  assert (factor : 0 < 10000000 # 2913) by reflexivity.
  destruct (sign_of_factor
              (FlatRate.diProcessingCost i - Formula.diProcessingCost i)
              (10000000 # 2913) factor) as [up [_ [down _]]].
  destruct (sign_of_factor (creditCardPercentage i - (152300 # 2913))
              (monthlyVolume i) volume) as [up' [_ [down' _]]].
  rewrite gap in up, down.
  assert (back : forall x, 0 <= x -> 0 <= x * monthlyVolume i)
    by (intros x some; apply Qmult_le_0_compat; lra).
  assert (back' : forall x, 0 <= x -> 0 <= x * (10000000 # 2913))
    by (intros x some; apply Qmult_le_0_compat; lra).
  assert (below :
    Formula.diProcessingCost i <= FlatRate.diProcessingCost i
    <-> 152300 # 2913 <= creditCardPercentage i).
  { split; intros le.
    - assert (0 <= creditCardPercentage i - (152300 # 2913)); [| lra].
      apply up'. rewrite <- gap. apply back'. lra.
    - assert (0 <= FlatRate.diProcessingCost i - Formula.diProcessingCost i);
        [| lra].
      apply up. apply back. lra. }
  assert (above :
    FlatRate.diProcessingCost i <= Formula.diProcessingCost i
    <-> creditCardPercentage i <= 152300 # 2913).
  { split; intros le.
    - assert (creditCardPercentage i - (152300 # 2913) <= 0); [| lra].
      apply down'. rewrite <- gap.
      assert (0 <= (Formula.diProcessingCost i - FlatRate.diProcessingCost i)
                   * (10000000 # 2913)) by (apply back'; lra).
      lra.
    - assert (FlatRate.diProcessingCost i - Formula.diProcessingCost i <= 0);
        [| lra].
      apply down.
      assert (0 <= ((152300 # 2913) - creditCardPercentage i)
                   * monthlyVolume i) by (apply back; lra).
      lra. }
  split; [exact below |].
  split; intros same.
  - apply Qle_antisym; [apply above | apply below]; lra.
  - apply Qle_antisym; [apply below | apply above]; lra.
Qed.

(** The statement at the worked example, where half the volume is on
    credit cards. *)
Lemma X24_formula_against_flat_rate_witness :
  let i : Inputs Q := example_inputs 50 in
  0 < monthlyVolume i
  /\ ~ Formula.diProcessingCost i <= FlatRate.diProcessingCost i.
Proof.
  intro i.
  assert (volume : 0 < monthlyVolume i) by reflexivity.
  split; [exact volume |].
  destruct (X24_formula_against_flat_rate i volume) as [[below _] _].
  intros le. specialize (below le). vm_compute in below. apply below.
  reflexivity.
Defined.
